(** * Campus data pre-processing scripts: a shallow embedding

    The repository holds three independent Python scripts and a schema module:

    - [preprocess_metrics.py]      ([Metrics]):      [extract_campus_from_region],
                                                     [process_metrics];
    - [preprocess_publications.py] ([Publications]): [filter_publications];
    - [preprocess_sdm.py]          ([Sdm]):          [categorize_score],
                                                     [parse_campus_scores_csv], ...;
    - [schemas.py]                 ([Schemas]):      [CAMPUS_MAPPING].

    Python [str] values are lists of Unicode code points, Python [int]s are
    [Z], insertion-ordered Python dicts are association lists kept in
    insertion order, and an exception that aborts a script is an explicit
    [Raise] result. *)

From Stdlib Require Import String Ascii.
From Stdlib Require Import List ZArith NArith Lia Bool.
From Stdlib Require Import Sorted Permutation SpecFloat.
Import ListNotations.

Set Implicit Arguments.

(* ------------------------------------------------------------------ *)
(** * Python text *)

Module Text.
#[local] Open Scope N_scope.

(** A Python [str]: a sequence of Unicode code points. *)
Definition str := list N.

Definition str_eqb (a b : str) : bool :=
  if list_eq_dec N.eq_dec a b then true else false.

(** Source literals are written as UTF-8 Rocq strings and decoded here
    (one- and two-byte sequences, which covers every literal of the scripts). *)
Fixpoint utf8_decode (bs : list N) : str :=
  match bs with
  | [] => []
  | b :: rest =>
      if (b <? 128)%N then b :: utf8_decode rest
      else match rest with
           | c :: rest' => ((b - 192) * 64 + (c - 128))%N :: utf8_decode rest'
           | [] => []
           end
  end.

Definition u (s : string) : str :=
  utf8_decode (map N_of_ascii (list_ascii_of_string s)).

(** [a.startswith(b)] and the substring test [needle in hay]. *)
Fixpoint startswith (hay needle : str) : bool :=
  match needle, hay with
  | [], _ => true
  | _ :: _, [] => false
  | n :: needle', h :: hay' => (n =? h)%N && startswith hay' needle'
  end.

Fixpoint contains (needle hay : str) : bool :=
  startswith hay needle ||
  match hay with
  | [] => false
  | _ :: hay' => contains needle hay'
  end.

(** Longest prefix of characters in a class, and what follows it. *)
Fixpoint span (p : N -> bool) (s : str) : str * str :=
  match s with
  | [] => ([], [])
  | c :: s' => if p c then let (w, r) := span p s' in (c :: w, r) else ([], s)
  end.

Fixpoint lstrip_with (sp : N -> bool) (s : str) : str :=
  match s with
  | [] => []
  | c :: s' => if sp c then lstrip_with sp s' else s
  end.

(** [s.strip()] for a given whitespace class. *)
Definition strip_with (sp : N -> bool) (s : str) : str :=
  rev (lstrip_with sp (rev (lstrip_with sp s))).

(** [s.replace(c, '')] for a one-character [c]. *)
Definition remove_char (c : N) (s : str) : str :=
  filter (fun x => negb (x =? c)%N) s.

(** The primitives of the Python runtime that the scripts call on text.
    Their tables are part of CPython, not of this repository, so the
    embedding is parametric in them; the laws are the few facts about them
    that the proofs use. *)
Class PyText := {
  (** [str.isspace] on one character; also the class [\s] of [re]. *)
  isspace : N -> bool;
  (** the class [\w] of [re] on [str] patterns. *)
  isword : N -> bool;
  (** [str.upper] and [str.lower]. *)
  upper : str -> str;
  lower : str -> str;
  (** whether a text character matches a pattern letter under [re.IGNORECASE]. *)
  ieq : N -> N -> bool;
  (** [int(s)]; [None] stands for [ValueError]. *)
  int_of_str : str -> option Z;
  upper_nil : upper [] = [];
  lower_nil : lower [] = [];
  lower_nonnil : forall s, lower s = [] -> s = [];
  word_lparen : isword 40 = false;
  word_rparen : isword 41 = false
}.

Definition strip `{PyText} (s : str) : str := strip_with isspace s.

(** ** The runtime on Basic Latin and Latin-1 Supplement

    The instance below follows CPython's tables for the code points below
    256; it leaves every other code point alone (no case, not a word
    character, not white space), except the long s, which [re.IGNORECASE]
    matches with [s]. *)

Definition in_range (lo hi c : N) : bool := ((lo <=? c) && (c <=? hi))%N.

Definition latin1_isspace (c : N) : bool :=
  in_range 9 13 c || in_range 28 32 c || (c =? 133)%N || (c =? 160)%N.

Definition is_digit (c : N) : bool := in_range 48 57 c.

Definition latin1_isword (c : N) : bool :=
  (c =? 95)%N || is_digit c || in_range 65 90 c || in_range 97 122 c
  || (c =? 170)%N || (c =? 178)%N || (c =? 179)%N || (c =? 181)%N
  || (c =? 185)%N || (c =? 186)%N || in_range 188 190 c
  || in_range 192 214 c || in_range 216 246 c || in_range 248 255 c.

Definition latin1_upper_char (c : N) : str :=
  if in_range 97 122 c then [c - 32]%N
  else if (c =? 181)%N then [924]
  else if (c =? 223)%N then [83; 83]
  else if in_range 224 246 c || in_range 248 254 c then [c - 32]%N
  else if (c =? 255)%N then [376]
  else [c].

Definition latin1_lower_char (c : N) : N :=
  if in_range 65 90 c || in_range 192 214 c || in_range 216 222 c
  then (c + 32)%N else c.

Definition latin1_upper (s : str) : str := flat_map latin1_upper_char s.
Definition latin1_lower (s : str) : str := map latin1_lower_char s.

Definition latin1_ieq (c pat : N) : bool :=
  (latin1_lower_char c =? latin1_lower_char pat)%N
  || ((c =? 383) && (latin1_lower_char pat =? 115))%N.

(** [int] on a stripped literal: digits, with single underscores allowed
    between digits. *)
Fixpoint digits_val (acc : Z) (prev_digit : bool) (s : str) : option Z :=
  match s with
  | [] => if prev_digit then Some acc else None
  | c :: rest =>
      if is_digit c then digits_val (acc * 10 + (Z.of_N c - 48))%Z true rest
      else if (c =? 95)%N && prev_digit then digits_val acc false rest
      else None
  end.

Definition latin1_int_of_str (s : str) : option Z :=
  match strip_with latin1_isspace s with
  | 43%N :: r => digits_val 0 false r
  | 45%N :: r => option_map Z.opp (digits_val 0 false r)
  | t => digits_val 0 false t
  end.

Lemma latin1_lower_nonnil (s : str) : latin1_lower s = [] -> s = [].
Proof. destruct s; [reflexivity | discriminate]. Qed.

#[export] Instance Latin1 : PyText := {|
  isspace := latin1_isspace;
  isword := latin1_isword;
  upper := latin1_upper;
  lower := latin1_lower;
  ieq := latin1_ieq;
  int_of_str := latin1_int_of_str;
  upper_nil := eq_refl;
  lower_nil := eq_refl;
  lower_nonnil := latin1_lower_nonnil;
  word_lparen := eq_refl;
  word_rparen := eq_refl
|}.

End Text.
Import Text.

(* ------------------------------------------------------------------ *)
(** * Python dicts and results *)

(** An insertion-ordered dict: [set] overwrites the value of a key that is
    present, in place, and appends a new key at the end. *)
Module Dict.
Section Dict.
Variables K V : Type.
Variable eqb : K -> K -> bool.

Definition t := list (K * V).

Fixpoint get (d : t) (k : K) : option V :=
  match d with
  | [] => None
  | (k', v) :: d' => if eqb k' k then Some v else get d' k
  end.

Fixpoint set (d : t) (k : K) (v : V) : t :=
  match d with
  | [] => [(k, v)]
  | (k', v') :: d' => if eqb k' k then (k', v) :: d' else (k', v') :: set d' k v
  end.

(** [d.get(k, default)] *)
Definition get_default (d : t) (k : K) (default : V) : V :=
  match get d k with Some v => v | None => default end.

Definition keys (d : t) : list K := map fst d.
End Dict.
End Dict.

(** Dicts with [str] keys. *)
Definition sdict (V : Type) := Dict.t str V.
Definition sget {V} (d : sdict V) (k : str) : option V := Dict.get str_eqb d k.
Definition sset {V} (d : sdict V) (k : str) (v : V) : sdict V := Dict.set str_eqb d k v.

Inductive exn := KeyError.

Inductive result (A : Type) :=
| Ok (a : A)
| Raise (e : exn).
Arguments Ok {A} a.
Arguments Raise {A} e.

(** A scalar read by [json.loads], or written by [json.dump], that the
    scripts only pass through. *)
Inductive json :=
| JNull
| JBool (b : bool)
| JInt (z : Z)
| JFloat (f : spec_float)
| JStr (s : str).

(** The Python literal [0.0]. *)
Definition float_zero : spec_float := S754_zero false.

(* ------------------------------------------------------------------ *)
(** * schemas.py *)

Module Schemas.

Definition CAMPUS_MAPPING : sdict str :=
  [ (u "MTY", u "Monterrey");
    (u "PUE", u "Puebla");
    (u "GDL", u "Guadalajara");
    (u "CDJ", u "Ciudad Juárez");
    (u "TOL", u "Toluca");
    (u "CCM", u "Ciudad de México");
    (u "CEM", u "Estado de México");
    (u "QRO", u "Querétaro");
    (u "CHI", u "Chihuahua");
    (u "SIN", u "Sinaloa");
    (u "AGS", u "Aguascalientes");
    (u "COB", u "Ciudad Obregón");
    (u "LEO", u "León");
    (u "LAG", u "Laguna");
    (u "SON", u "Sonora");
    (u "HGO", u "Hidalgo");
    (u "SLP", u "San Luis Potosí");
    (u "CVA", u "Cuernavaca");
    (u "CSF", u "Santa Fe");
    (u "SAL", u "Saltillo") ].

(** [class CampusID(str, Enum)]: the 20 canonical codes. *)
Definition CampusID : list str :=
  map u [ "MTY"; "PUE"; "GDL"; "CDJ"; "TOL"; "CCM"; "CEM"; "QRO"; "CHI"; "SIN";
          "AGS"; "COB"; "LEO"; "LAG"; "SON"; "HGO"; "SLP"; "CVA"; "CSF"; "SAL" ]%string.

End Schemas.

(* ------------------------------------------------------------------ *)
(** * preprocess_metrics.py *)

Module Metrics.

Definition CAMPUS_MAPPING : sdict str :=
  [ (u "MTY", u "Monterrey");
    (u "PUE", u "Puebla");
    (u "GDL", u "Guadalajara");
    (u "CDJ", u "Cd. Juárez");
    (u "TOL", u "Toluca");
    (u "CCM", u "Ciudad de México");
    (u "CEM", u "Estado de México");
    (u "QRO", u "Querétaro");
    (u "CHI", u "Chihuahua");
    (u "SIN", u "Sinaloa");
    (u "AGS", u "Aguascalientes");
    (u "COB", u "Cd. Obregón");
    (u "LEO", u "León");
    (u "LAG", u "Laguna");
    (u "SON", u "Sonora");
    (u "HGO", u "Hidalgo");
    (u "SLP", u "San Luis Potosí");
    (u "CVA", u "Cuernavaca");
    (u "CSF", u "Santa Fe");
    (u "SAL", u "Saltillo") ].

Section WithRuntime.
Context `{PyText}.

(** [re] matching [\((\w+)\)] at the start of [s]: an opening parenthesis,
    the longest run of word characters (a shorter run is followed by a word
    character, never by the closing parenthesis), a closing parenthesis.
    The result is group 1. *)
Definition match_paren_at (s : str) : option str :=
  match s with
  | c :: s' =>
      if (c =? 40)%N then
        let (w, r) := span isword s' in
        match w, r with
        | _ :: _, d :: _ => if (d =? 41)%N then Some w else None
        | _, _ => None
        end
      else None
  | [] => None
  end.

(** [re.search(r'\((\w+)\)', s)]: the match at the leftmost position. *)
Fixpoint re_search_paren (s : str) : option str :=
  match match_paren_at s with
  | Some w => Some w
  | None => match s with
            | [] => None
            | _ :: s' => re_search_paren s'
            end
  end.

Definition extract_campus_from_region (region : str) : str * str :=
  (* Strategy 1: parentheses *)
  match re_search_paren region with
  | Some group1 =>
      let campus_id := upper group1 in
      let campus_name := Dict.get_default str_eqb CAMPUS_MAPPING campus_id campus_id in
      (campus_id, campus_name)
  | None =>
      (* Strategy 2: campus codes in the text *)
      let region_upper := upper region in
      match find (fun kv => contains (fst kv) region_upper) CAMPUS_MAPPING with
      | Some (code, name) => (code, name)
      | None =>
          (* Strategy 3: campus full names in the text *)
          match find (fun kv => contains (lower (snd kv)) (lower region))
                     CAMPUS_MAPPING with
          | Some (code, name) => (code, name)
          | None =>
              (* Fallback: first 3 letters *)
              let campus_id :=
                if 3 <=? length region then upper (firstn 3 region) else u "UNK" in
              (campus_id, region)
          end
      end
  end.

(** One line of a metrics file. A field is [None] when the key is absent;
    [REGION], when present, is text. *)
Record metrics_row := {
  REGION : option str;
  POST_COMMENTS__SUM : option json;
  ALCANCE_TOTAL : option json;
  VOLUMEN_DE_PUBLICACIONES : option json;
  INTERACCIONES_TOTALES : option json
}.

Record period_metrics := {
  pm_POST_COMMENTS__SUM : json;
  pm_ALCANCE_TOTAL : json;
  pm_VOLUMEN_DE_PUBLICACIONES : json;
  pm_INTERACCIONES_TOTALES : json
}.

Record region_combined := {
  campus_id : str;
  campus_name : str;
  current_month : period_metrics;
  previous_year_month : period_metrics
}.

Record agent2_output := {
  regions : list region_combined;
  total_regions : nat
}.

Definition or_default (v : option json) (default : json) : json :=
  match v with Some x => x | None => default end.

(** The four [row.get(key, 0)] / [row.get(key, 0.0)] reads. *)
Definition metrics_of (row : metrics_row) : period_metrics :=
  {| pm_POST_COMMENTS__SUM := or_default (POST_COMMENTS__SUM row) (JInt 0);
     pm_ALCANCE_TOTAL := or_default (ALCANCE_TOTAL row) (JFloat float_zero);
     pm_VOLUMEN_DE_PUBLICACIONES := or_default (VOLUMEN_DE_PUBLICACIONES row) (JInt 0);
     pm_INTERACCIONES_TOTALES := or_default (INTERACCIONES_TOTALES row) (JInt 0) |}.

Definition zero_metrics : period_metrics :=
  {| pm_POST_COMMENTS__SUM := JInt 0;
     pm_ALCANCE_TOTAL := JFloat float_zero;
     pm_VOLUMEN_DE_PUBLICACIONES := JInt 0;
     pm_INTERACCIONES_TOTALES := JInt 0 |}.

(** [{item['REGION']: item for item in previous_data}], left to right;
    [item['REGION']] raises [KeyError] when the key is absent. *)
Fixpoint build_previous_lookup (previous_data : list metrics_row)
    (acc : sdict metrics_row) : result (sdict metrics_row) :=
  match previous_data with
  | [] => Ok acc
  | item :: rest =>
      match REGION item with
      | None => Raise KeyError
      | Some r => build_previous_lookup rest (sset acc r item)
      end
  end.

(** [current.get('REGION', '')] *)
Definition region_str (current : metrics_row) : str :=
  match REGION current with Some r => r | None => [] end.

(** The body of the loop over [current_data]. A record stored in the lookup
    has its [REGION] key, so it is a non-empty dict and [if previous:] tests
    only whether the lookup found one. *)
Definition combine (previous_lookup : sdict metrics_row) (current : metrics_row)
    : region_combined :=
  let region := region_str current in
  let '(cid, cname) := extract_campus_from_region region in
  let previous := sget previous_lookup region in
  let current_metrics := metrics_of current in
  let previous_metrics :=
    match previous with
    | Some p => metrics_of p
    | None => zero_metrics
    end in
  {| campus_id := cid;
     campus_name := cname;
     current_month := current_metrics;
     previous_year_month := previous_metrics |}.

(** [process_metrics] on the parsed lines of the two input files. *)
Definition process_metrics (current_data previous_data : list metrics_row)
    : result agent2_output :=
  match build_previous_lookup previous_data [] with
  | Raise e => Raise e
  | Ok previous_lookup =>
      let regions := map (combine previous_lookup) current_data in
      Ok {| regions := regions; total_regions := length regions |}
  end.

End WithRuntime.
End Metrics.

(* ------------------------------------------------------------------ *)
(** * preprocess_publications.py *)

Module Publications.

(** One line of the publications file. A field is [None] when the key is
    absent; the two counters may also hold JSON [null] ([Some None]). *)
Record raw_pub := {
  in_ACCOUNT : option str;
  in_SOCIAL_NETWORK : option str;
  in_INTERACCIONES_GENERAL__SUM : option (option Z);
  in_ALCANCE_GENERAL__SUM : option (option Z);
  in_PUBLISHEDTIME : option json;
  in_OUTBOUND_POST : option json
}.

(** The dict [filtered_pub]. *)
Record filtered_pub := {
  PUBLISHEDTIME : json;
  SOCIAL_NETWORK : str;
  INTERACCIONES_GENERAL__SUM : Z;
  ACCOUNT : str;
  ALCANCE_GENERAL__SUM : Z;
  OUTBOUND_POST : json;
  engagement_score : Z
}.

(** One line of the output file. *)
Record campus_group := {
  campus_id : str;
  publications : list filtered_pub
}.

(** [pub.get(key, '')] *)
Definition get_text (v : option str) : str :=
  match v with Some s => s | None => [] end.

Definition get_json (v : option json) : json :=
  match v with Some x => x | None => JStr [] end.

(** [pub.get(key, 0) or 0] *)
Definition get_count (v : option (option Z)) : Z :=
  match v with Some (Some n) => n | _ => 0%Z end.

Definition platform_limits : sdict nat :=
  [ (u "instagram", 4); (u "facebook", 4) ].

(** [sorted(posts, key=..., reverse=True)]: the stable sort by decreasing
    key. [x] comes from the left of [l] in the input, so it is placed before
    the records of [l] with the same key. *)
Fixpoint insert_desc {A} (key : A -> Z) (x : A) (l : list A) : list A :=
  match l with
  | [] => [x]
  | y :: l' => if (key y <=? key x)%Z then x :: l else y :: insert_desc key x l'
  end.

Definition sorted_desc {A} (key : A -> Z) (l : list A) : list A :=
  fold_right (insert_desc key) [] l.

Section WithRuntime.
Context `{PyText}.

(** The literal part of a pattern under [re.IGNORECASE]. *)
Fixpoint match_literal (pat s : str) : option str :=
  match pat with
  | [] => Some s
  | p :: pat' =>
      match s with
      | c :: s' => if ieq c p then match_literal pat' s' else None
      | [] => None
      end
  end.

(** [Campus\s+(\w+)\s+\[] at the start of [s]. White space, word characters
    and the bracket exclude one another, so each run is the longest one. *)
Definition match_campus_at (s : str) : option str :=
  match match_literal (u "Campus") s with
  | None => None
  | Some s1 =>
      let (ws1, s2) := span isspace s1 in
      let (w, s3) := span isword s2 in
      let (ws2, s4) := span isspace s3 in
      match ws1, w, ws2, s4 with
      | _ :: _, _ :: _, _ :: _, d :: _ => if (d =? 91)%N then Some w else None
      | _, _, _, _ => None
      end
  end.

(** [re.search(r'Campus\s+(\w+)\s+\[', account, re.IGNORECASE)], group 1. *)
Fixpoint re_search_campus (s : str) : option str :=
  match match_campus_at s with
  | Some w => Some w
  | None => match s with
            | [] => None
            | _ :: s' => re_search_campus s'
            end
  end.

(** The platform test on the lowercased [SOCIAL_NETWORK]. *)
Definition platform_of (social_network : str) : option str :=
  if contains (u "instagram") social_network then Some (u "instagram")
  else if contains (u "facebook") social_network then Some (u "facebook")
  else None.

(** The body of the first loop up to the [append]: the campus, the platform
    and the record to file, or [None] when the record is skipped. *)
Definition classify (pub : raw_pub) : option (str * str * filtered_pub) :=
  let account := get_text (in_ACCOUNT pub) in
  let social_network := lower (get_text (in_SOCIAL_NETWORK pub)) in
  match re_search_campus account with
  | Some group1 =>
      let campus_id := upper group1 in
      let interactions := get_count (in_INTERACCIONES_GENERAL__SUM pub) in
      let alcance := get_count (in_ALCANCE_GENERAL__SUM pub) in
      let score := (interactions * 10 + alcance)%Z in
      match platform_of social_network with
      | Some platform =>
          Some (campus_id, platform,
                {| PUBLISHEDTIME := get_json (in_PUBLISHEDTIME pub);
                   SOCIAL_NETWORK := get_text (in_SOCIAL_NETWORK pub);
                   INTERACCIONES_GENERAL__SUM := interactions;
                   ACCOUNT := get_text (in_ACCOUNT pub);
                   ALCANCE_GENERAL__SUM := alcance;
                   OUTBOUND_POST := get_json (in_OUTBOUND_POST pub);
                   engagement_score := score |})
      | None => None
      end
  | None => None
  end.

(** [campus_platform_posts[campus_id][platform].append(filtered_pub)] on the
    nested [defaultdict]: a missing campus, then a missing platform, is
    created at the end of its dict. *)
Definition add_post (cpp : sdict (sdict (list filtered_pub)))
    (campus_id platform : str) (x : filtered_pub) : sdict (sdict (list filtered_pub)) :=
  let platforms := Dict.get_default str_eqb cpp campus_id [] in
  let posts := Dict.get_default str_eqb platforms platform [] in
  sset cpp campus_id (sset platforms platform (posts ++ [x])).

Definition group_step (cpp : sdict (sdict (list filtered_pub))) (pub : raw_pub) :=
  match classify pub with
  | Some (campus_id, platform, x) => add_post cpp campus_id platform x
  | None => cpp
  end.

Definition group_by_campus_platform (publications_data : list raw_pub) :=
  fold_left group_step publications_data [].

(** The inner loop of the second pass: [campus_posts] for one campus. *)
Definition top_posts (platforms : sdict (list filtered_pub)) : list filtered_pub :=
  flat_map (fun kv =>
    let limit := Dict.get_default str_eqb platform_limits (fst kv) 0 in
    if 0 <? limit then firstn limit (sorted_desc engagement_score (snd kv))
    else []) platforms.

(** [filter_publications], from the parsed input lines to the list
    [campus_grouped_output] whose items are written one per line. *)
Definition filter_publications (publications_data : list raw_pub) : list campus_group :=
  map (fun kv => {| campus_id := fst kv; publications := top_posts (snd kv) |})
      (group_by_campus_platform publications_data).

End WithRuntime.
End Publications.

(* ------------------------------------------------------------------ *)
(** * preprocess_sdm.py *)

Module Sdm.

Definition categorize_score (score : option Z) : option str :=
  match score with
  | None => None
  | Some score =>
      if (score <=? 75)%Z then Some (u "deficiente")
      else if (score <=? 100)%Z then Some (u "regular")
      else if (score <=? 120)%Z then Some (u "satisfactorio")
      else if (score <=? 140)%Z then Some (u "sobresaliente")
      else Some (u "excepcional")
  end.

Definition CAMPUS_MAPPING : sdict str :=
  [ (u "Monterrey", u "MTY");
    (u "Puebla", u "PUE");
    (u "Guadalajara", u "GDL");
    (u "Ciudad Juárez", u "CDJ");
    (u "Toluca", u "TOL");
    (u "Ciudad de México", u "CCM");
    (u "Estado de México", u "CEM");
    (u "Querétaro", u "QRO");
    (u "Chihuahua", u "CHI");
    (u "Sinaloa", u "SIN");
    (u "Aguascalientes", u "AGS");
    (u "Ciudad Obregón", u "COB");
    (u "León", u "LEO");
    (u "Laguna", u "LAG");
    (u "Sonora", u "SON");
    (u "Hidalgo", u "HGO");
    (u "San Luis Potosí", u "SLP");
    (u "Cuernavaca", u "CVA");
    (u "Santa Fe", u "CSF");
    (u "Saltillo", u "SAL") ].

(** The accumulator [current_campus]. *)
Record campus_scores := {
  campus_id : str;
  campus_name : str;
  facebook : sdict json;
  twitter : sdict json;
  instagram : sdict json;
  totales : sdict json
}.

Record parser_state := {
  campuses : list campus_scores;
  current_campus : option campus_scores;
  current_platform : option str
}.

Record agent3_output := {
  out_campuses : list campus_scores;
  total_campuses : nat
}.

Definition json_of_score (v : option Z) : json :=
  match v with Some z => JInt z | None => JNull end.

Definition json_of_category (v : option str) : json :=
  match v with Some s => JStr s | None => JNull end.

(** Truth value of a [str]. *)
Definition truthy (s : str) : bool :=
  match s with [] => false | _ :: _ => true end.

(** [current_campus[platform][key] = v]; [platform] is one of the four
    platform keys of the accumulator. *)
Definition setitem (c : campus_scores) (platform key : str) (v : json) : campus_scores :=
  if str_eqb platform (u "facebook") then
    {| campus_id := campus_id c; campus_name := campus_name c;
       facebook := sset (facebook c) key v; twitter := twitter c;
       instagram := instagram c; totales := totales c |}
  else if str_eqb platform (u "twitter") then
    {| campus_id := campus_id c; campus_name := campus_name c;
       facebook := facebook c; twitter := sset (twitter c) key v;
       instagram := instagram c; totales := totales c |}
  else if str_eqb platform (u "instagram") then
    {| campus_id := campus_id c; campus_name := campus_name c;
       facebook := facebook c; twitter := twitter c;
       instagram := sset (instagram c) key v; totales := totales c |}
  else if str_eqb platform (u "totales") then
    {| campus_id := campus_id c; campus_name := campus_name c;
       facebook := facebook c; twitter := twitter c;
       instagram := instagram c; totales := sset (totales c) key v |}
  else c.

Section WithRuntime.
Context `{PyText}.

Definition map_campus_name_to_id (campus_name : str) : str :=
  match find (fun kv => contains (lower (fst kv)) (lower campus_name))
             CAMPUS_MAPPING with
  | Some (_, code) => code
  | None => upper (firstn 3 campus_name)
  end.

Definition normalize_score_name (score_name : str) : str :=
  let mapping : sdict str :=
    [ (u "visibilidad", u "visibilidad");
      (u "resonancia", u "resonancia");
      (u "permanencia", u "permanencia");
      (u "sentimiento", u "sentimiento");
      (u "salud de marca", u "salud_de_marca") ] in
  Dict.get_default str_eqb mapping (lower score_name) score_name.

Definition parse_score (value : str) : option Z :=
  if negb (truthy value) || str_eqb (lower value) (u "calificaciones") then None
  else int_of_str (remove_char 44 value).

(** [x in [a, b, ...]] on strings. *)
Definition str_in (x : str) (l : list string) : bool :=
  existsb (fun a => str_eqb x (u a)) l.

(** The body of [for row in reader]. *)
Definition step (st : parser_state) (row : list str) : parser_state :=
  match row with
  | col0 :: col1 :: _ =>
      let left_col := lower (strip col0) in
      let right_col := strip col1 in
      if str_eqb left_col (u "campus") then
        (* an accumulator holds six keys, so [if current_campus:] only
           tests that there is one *)
        let campuses' :=
          match current_campus st with
          | Some c => campuses st ++ [c]
          | None => campuses st
          end in
        let name := right_col in
        let cid := map_campus_name_to_id name in
        {| campuses := campuses';
           current_campus :=
             Some {| campus_id := cid; campus_name := name;
                     facebook := []; twitter := []; instagram := []; totales := [] |};
           current_platform := None |}
      else if str_in left_col ["facebook"; "twitter"; "instagram"; "totales"]%string then
        {| campuses := campuses st;
           current_campus := current_campus st;
           current_platform := Some left_col |}
      else if str_in left_col ["visibilidad"; "resonancia"; "permanencia";
                               "sentimiento"; "salud de marca"]%string then
        let score_type := normalize_score_name left_col in
        let score_value := parse_score right_col in
        let category := categorize_score score_value in
        match current_platform st, current_campus st with
        | Some platform, Some c =>
            if truthy platform then
              let c1 := setitem c platform score_type (json_of_score score_value) in
              let c2 := setitem c1 platform (score_type ++ u "_categoria")
                                (json_of_category category) in
              {| campuses := campuses st;
                 current_campus := Some c2;
                 current_platform := current_platform st |}
            else st
        | _, _ => st
        end
      else st
  | _ => st
  end.

Definition initial_state : parser_state :=
  {| campuses := []; current_campus := None; current_platform := None |}.

(** [parse_campus_scores_csv] on the rows that [csv.reader] yields: the
    loop, then the flush of the last campus. *)
Definition parse_campus_scores_csv (rows : list (list str)) : agent3_output :=
  let st := fold_left step rows initial_state in
  let campuses :=
    match current_campus st with
    | Some c => campuses st ++ [c]
    | None => campuses st
    end in
  {| out_campuses := campuses; total_campuses := length campuses |}.

End WithRuntime.
End Sdm.

(* ================================================================== *)
(** * Properties *)

Unset Implicit Arguments.

(** ** Text and dict facts *)

Lemma str_eqb_eq (a b : str) : str_eqb a b = true <-> a = b.
Proof.
  unfold str_eqb. destruct (list_eq_dec N.eq_dec a b); split; congruence.
Qed.

Lemma str_eqb_refl (a : str) : str_eqb a a = true.
Proof. now apply str_eqb_eq. Qed.

Lemma str_eqb_neq (a b : str) : str_eqb a b = false <-> a <> b.
Proof.
  unfold str_eqb. destruct (list_eq_dec N.eq_dec a b); split; congruence.
Qed.

Lemma str_eqb_sym (a b : str) : str_eqb a b = str_eqb b a.
Proof.
  destruct (str_eqb b a) eqn:E.
  - apply str_eqb_eq. symmetry. now apply str_eqb_eq.
  - apply str_eqb_neq. apply str_eqb_neq in E. congruence.
Qed.

Section DictFacts.
Variable V : Type.
Implicit Types (d : sdict V) (k : str) (v : V).

Lemma sget_sset_same d k v : sget (sset d k v) k = Some v.
Proof.
  unfold sget, sset. induction d as [|[k' v'] d IH]; simpl.
  - now rewrite str_eqb_refl.
  - destruct (str_eqb k' k) eqn:E; simpl; rewrite E; auto.
Qed.

Lemma sget_sset_other d k k' v : k <> k' -> sget (sset d k v) k' = sget d k'.
Proof.
  intros Hne. unfold sget, sset. induction d as [|[k0 v0] d IH]; simpl.
  - apply str_eqb_neq in Hne. now rewrite Hne.
  - destruct (str_eqb k0 k) eqn:E; simpl.
    + apply str_eqb_eq in E. subst k0.
      apply str_eqb_neq in Hne. now rewrite Hne.
    + now rewrite IH.
Qed.

Lemma sget_sset d k k' v :
  sget (sset d k v) k' = if str_eqb k k' then Some v else sget d k'.
Proof.
  destruct (str_eqb k k') eqn:E.
  - apply str_eqb_eq in E. subst. apply sget_sset_same.
  - apply str_eqb_neq in E. now apply sget_sset_other.
Qed.
End DictFacts.

(* ------------------------------------------------------------------ *)
(** ** Score categories *)

Section ScoreCategories.
Import Sdm.

(** The rank of a category label in the order of the threshold table. *)
Definition category_rank (c : option str) : option nat :=
  match c with
  | None => None
  | Some s =>
      if str_eqb s (u "deficiente") then Some 0
      else if str_eqb s (u "regular") then Some 1
      else if str_eqb s (u "satisfactorio") then Some 2
      else if str_eqb s (u "sobresaliente") then Some 3
      else if str_eqb s (u "excepcional") then Some 4
      else None
  end.

Lemma categorize_score_rank (s : Z) :
  category_rank (categorize_score (Some s)) =
  Some (if (s <=? 75)%Z then 0 else if (s <=? 100)%Z then 1
        else if (s <=? 120)%Z then 2 else if (s <=? 140)%Z then 3 else 4).
Proof.
  unfold categorize_score.
  destruct (s <=? 75)%Z; [reflexivity|].
  destruct (s <=? 100)%Z; [reflexivity|].
  destruct (s <=? 120)%Z; [reflexivity|].
  destruct (s <=? 140)%Z; reflexivity.
Qed.

(** C4: [categorize_score] maps null to null, follows the threshold table on
    every integer, and is monotone in the rank of the category. *)
Theorem categorize_score_table_monotone :
  categorize_score None = None /\
  (forall s : Z,
      ((s <= 75)%Z -> categorize_score (Some s) = Some (u "deficiente")) /\
      ((76 <= s <= 100)%Z -> categorize_score (Some s) = Some (u "regular")) /\
      ((101 <= s <= 120)%Z -> categorize_score (Some s) = Some (u "satisfactorio")) /\
      ((121 <= s <= 140)%Z -> categorize_score (Some s) = Some (u "sobresaliente")) /\
      ((141 <= s)%Z -> categorize_score (Some s) = Some (u "excepcional"))) /\
  (forall s1 s2 : Z, (s1 < s2)%Z ->
      exists r1 r2,
        category_rank (categorize_score (Some s1)) = Some r1 /\
        category_rank (categorize_score (Some s2)) = Some r2 /\
        r1 <= r2).
Proof.
  split; [reflexivity|]. split.
  - intros s. unfold categorize_score.
    repeat split; intros Hs;
      repeat match goal with
             | |- context [(?a <=? ?b)%Z] => destruct (Z.leb_spec a b)
             end; try reflexivity; lia.
  - intros s1 s2 Hlt. rewrite !categorize_score_rank.
    do 2 eexists. split; [reflexivity|]. split; [reflexivity|].
    repeat match goal with
           | |- context [(?a <=? ?b)%Z] => destruct (Z.leb_spec a b)
           end; lia.
Qed.

Lemma categorize_score_table_monotone_witness :
  categorize_score (Some 75%Z) = Some (u "deficiente") /\
  categorize_score (Some 76%Z) = Some (u "regular") /\
  categorize_score (Some 100%Z) = Some (u "regular") /\
  categorize_score (Some 101%Z) = Some (u "satisfactorio") /\
  categorize_score (Some 120%Z) = Some (u "satisfactorio") /\
  categorize_score (Some 121%Z) = Some (u "sobresaliente") /\
  categorize_score (Some 140%Z) = Some (u "sobresaliente") /\
  categorize_score (Some 141%Z) = Some (u "excepcional") /\
  exists r1 r2,
    category_rank (categorize_score (Some 100%Z)) = Some r1 /\
    category_rank (categorize_score (Some 101%Z)) = Some r2 /\
    r1 <= r2.
Proof.
  destruct categorize_score_table_monotone as [_ [Htab Hmono]].
  split; [apply (Htab 75%Z); lia|].
  split; [apply (Htab 76%Z); lia|].
  split; [apply (Htab 100%Z); lia|].
  split; [apply (Htab 101%Z); lia|].
  split; [apply (Htab 120%Z); lia|].
  split; [apply (Htab 121%Z); lia|].
  split; [apply (Htab 140%Z); lia|].
  split; [apply (Htab 141%Z); lia|].
  apply (Hmono 100%Z 101%Z); lia.
Defined.

End ScoreCategories.

(* ------------------------------------------------------------------ *)
(** ** The three campus tables *)

Section CampusTables.

(** The display names that the name-to-code literal of the scores script
    files under a code. *)
Definition sdm_names_of (code : str) : list str :=
  map fst (filter (fun kv => str_eqb (snd kv) code) Sdm.CAMPUS_MAPPING).

(** The three literals give [code] one and the same display name. *)
Definition same_display_name (code : str) : Prop :=
  exists name,
    sget Metrics.CAMPUS_MAPPING code = Some name /\
    sget Schemas.CAMPUS_MAPPING code = Some name /\
    sdm_names_of code = [name].

(** The literals of the scores script and of the schema module agree on [code]. *)
Definition sdm_schema_same_name (code : str) : Prop :=
  exists name,
    sget Schemas.CAMPUS_MAPPING code = Some name /\
    sdm_names_of code = [name].

Lemma In_CampusID_cases (P : str -> Prop) :
  Forall P Schemas.CampusID -> forall code, In code Schemas.CampusID -> P code.
Proof. intros HF code Hin. rewrite Forall_forall in HF. now apply HF. Qed.

(** C2, as stated, fails: the metrics literal names CDJ [Cd. Juárez] and the
    schema literal names it [Ciudad Juárez]. *)
Lemma campus_tables_differ_on_CDJ :
  In (u "CDJ") Schemas.CampusID /\ ~ same_display_name (u "CDJ").
Proof.
  split.
  - vm_compute. tauto.
  - intros [name [Hm [Hs _]]].
    vm_compute in Hm. vm_compute in Hs.
    rewrite <- Hm in Hs. discriminate Hs.
Qed.

(** C2, amended: the three literals list the same 20 codes in the same
    order; the scores and schema literals agree on the name of every code;
    the metrics literal agrees with them on every code but CDJ and COB,
    which it names [Cd. Juárez] and [Cd. Obregón] where they have
    [Ciudad Juárez] and [Ciudad Obregón]. *)
Theorem campus_tables_agree_except_two :
  length Schemas.CampusID = 20 /\
  Dict.keys Metrics.CAMPUS_MAPPING = Schemas.CampusID /\
  Dict.keys Schemas.CAMPUS_MAPPING = Schemas.CampusID /\
  map snd Sdm.CAMPUS_MAPPING = Schemas.CampusID /\
  (forall code, In code Schemas.CampusID -> sdm_schema_same_name code) /\
  (forall code, In code Schemas.CampusID ->
     code <> u "CDJ" -> code <> u "COB" -> same_display_name code) /\
  sget Metrics.CAMPUS_MAPPING (u "CDJ") = Some (u "Cd. Juárez") /\
  sget Schemas.CAMPUS_MAPPING (u "CDJ") = Some (u "Ciudad Juárez") /\
  sget Metrics.CAMPUS_MAPPING (u "COB") = Some (u "Cd. Obregón") /\
  sget Schemas.CAMPUS_MAPPING (u "COB") = Some (u "Ciudad Obregón").
Proof.
  repeat match goal with |- _ = _ /\ _ => split; [reflexivity|] end.
  split; [|split; [|repeat split; reflexivity]].
  - apply In_CampusID_cases.
    repeat (constructor; [eexists; split; vm_compute; reflexivity|]).
    constructor.
  - apply (In_CampusID_cases
             (fun code => code <> u "CDJ" -> code <> u "COB" -> same_display_name code)).
    repeat (constructor;
            [ intros H1 H2;
              first [ exfalso; apply H1; reflexivity
                    | exfalso; apply H2; reflexivity
                    | eexists; repeat split; vm_compute; reflexivity ] |]).
    constructor.
Qed.

Lemma campus_tables_agree_except_two_witness :
  In (u "MTY") Schemas.CampusID /\ u "MTY" <> u "CDJ" /\ u "MTY" <> u "COB" /\
  sdm_schema_same_name (u "MTY") /\ same_display_name (u "MTY").
Proof.
  assert (Hin : In (u "MTY") Schemas.CampusID) by (vm_compute; tauto).
  assert (H1 : u "MTY" <> u "CDJ") by (vm_compute; discriminate).
  assert (H2 : u "MTY" <> u "COB") by (vm_compute; discriminate).
  destruct campus_tables_agree_except_two as [_ [_ [_ [_ [Hss [Hall _]]]]]].
  split; [exact Hin|]. split; [exact H1|]. split; [exact H2|].
  split; [exact (Hss (u "MTY") Hin) | exact (Hall (u "MTY") Hin H1 H2)].
Defined.

End CampusTables.

(* ------------------------------------------------------------------ *)
(** ** Campus resolution *)

Section ResolverFacts.
Context `{PyText}.
Import Metrics.

Lemma span_app_stop (p : N -> bool) (a : str) (d : N) (x : str) :
  p d = false ->
  span p (a ++ d :: x) = let (w, r) := span p a in (w, r ++ d :: x).
Proof.
  intros Hd. induction a as [|c a IH]; simpl.
  - now rewrite Hd.
  - destruct (p c); [|reflexivity].
    rewrite IH. now destruct (span p a).
Qed.

Lemma span_all (p : N -> bool) (w : str) :
  forallb p w = true -> span p w = (w, []).
Proof.
  induction w as [|c w IH]; simpl; [reflexivity|].
  intros Hw. apply andb_prop in Hw as [Hc Hw].
  now rewrite Hc, IH.
Qed.

Lemma match_paren_at_token (tok rest : str) :
  tok <> [] -> forallb isword tok = true ->
  match_paren_at (40%N :: tok ++ 41%N :: rest) = Some tok.
Proof.
  intros Hne Hw. unfold match_paren_at. simpl (40 =? 40)%N. cbv iota.
  rewrite (span_app_stop isword tok 41%N rest word_rparen), (span_all _ _ Hw).
  destruct tok; [congruence|]. reflexivity.
Qed.

Lemma match_paren_at_extend (c : N) (pre x : str) :
  match_paren_at (c :: pre) = None ->
  match_paren_at (c :: pre ++ 40%N :: x) = None.
Proof.
  unfold match_paren_at. destruct (c =? 40)%N; [|reflexivity].
  rewrite (span_app_stop isword pre 40%N x word_lparen).
  destruct (span isword pre) as [w r].
  destruct w as [|w0 w]; [reflexivity|].
  destruct r as [|d r]; [reflexivity|]. simpl. trivial.
Qed.

Lemma re_search_paren_skip (pre x : str) :
  re_search_paren pre = None ->
  re_search_paren (pre ++ 40%N :: x) = re_search_paren (40%N :: x).
Proof.
  induction pre as [|c pre IH]; [reflexivity|].
  intros Hnone. change ((c :: pre) ++ 40%N :: x) with (c :: pre ++ 40%N :: x).
  cbn [re_search_paren] in Hnone |- *.
  destruct (match_paren_at (c :: pre)) eqn:Hm; [discriminate|].
  rewrite (match_paren_at_extend _ _ x Hm). now apply IH.
Qed.

Lemma re_search_paren_first (pre tok rest : str) :
  re_search_paren pre = None -> tok <> [] -> forallb isword tok = true ->
  re_search_paren (pre ++ 40%N :: tok ++ 41%N :: rest) = Some tok.
Proof.
  intros Hpre Hne Hw. rewrite re_search_paren_skip by assumption.
  cbn [re_search_paren]. now rewrite match_paren_at_token.
Qed.

Lemma contains_nil (needle : str) :
  contains needle [] = match needle with [] => true | _ :: _ => false end.
Proof. destruct needle; reflexivity. Qed.

Lemma find_none_intro {A} (f : A -> bool) (l : list A) :
  (forall x, In x l -> f x = false) -> find f l = None.
Proof.
  induction l as [|a l IH]; simpl; [reflexivity|].
  intros Hf. rewrite (Hf a) by now left. apply IH. intros x Hx. apply Hf. now right.
Qed.

Lemma lower_name_nonnil (kv : str * str) :
  In kv CAMPUS_MAPPING -> contains (lower (snd kv)) [] = false.
Proof.
  intros Hin. rewrite contains_nil.
  destruct (lower (snd kv)) eqn:E; [|reflexivity].
  apply lower_nonnil in E.
  assert (Hall : forallb (fun kv => Sdm.truthy (snd kv)) CAMPUS_MAPPING = true)
    by reflexivity.
  rewrite forallb_forall in Hall. specialize (Hall kv Hin).
  rewrite E in Hall. discriminate.
Qed.

(** The empty text resolves to the unknown campus. *)
Lemma extract_campus_from_region_nil :
  extract_campus_from_region [] = (u "UNK", []).
Proof.
  unfold extract_campus_from_region. cbn [re_search_paren match_paren_at].
  rewrite upper_nil, lower_nil.
  rewrite (find_none_intro (fun kv => contains (fst kv) []) CAMPUS_MAPPING).
  - rewrite find_none_intro; [reflexivity|]. apply lower_name_nonnil.
  - assert (Hall : forallb (fun kv => negb (contains (fst kv) [])) CAMPUS_MAPPING = true)
      by reflexivity.
    rewrite forallb_forall in Hall. intros x Hx. specialize (Hall x Hx).
    now apply negb_true_iff in Hall.
Qed.

End ResolverFacts.

(** C10: resolution stops at the first parenthesized token. When the text is
    [pre (T1) rest], with no parenthesized token in [pre], the result is
    computed from [T1] alone, whatever [rest] holds; an unknown [T1] is
    returned uppercased as both code and name. *)
Theorem extract_campus_first_paren_token :
  forall (rt : PyText) (pre tok rest : str),
    Metrics.re_search_paren pre = None ->
    tok <> [] -> forallb isword tok = true ->
    Metrics.extract_campus_from_region (pre ++ u "(" ++ tok ++ u ")" ++ rest)
    = (upper tok,
       Dict.get_default str_eqb Metrics.CAMPUS_MAPPING (upper tok) (upper tok))
    /\ (sget Metrics.CAMPUS_MAPPING (upper tok) = None ->
        Metrics.extract_campus_from_region (pre ++ u "(" ++ tok ++ u ")" ++ rest)
        = (upper tok, upper tok)).
Proof.
  intros rt pre tok rest Hpre Hne Hw.
  change (u "(") with [40%N]. change (u ")") with [41%N].
  change ([40%N] ++ tok ++ [41%N] ++ rest) with (40%N :: tok ++ 41%N :: rest).
  assert (E : Metrics.extract_campus_from_region (pre ++ 40%N :: tok ++ 41%N :: rest)
              = (upper tok,
                 Dict.get_default str_eqb Metrics.CAMPUS_MAPPING (upper tok) (upper tok))).
  { unfold Metrics.extract_campus_from_region.
    now rewrite re_search_paren_first. }
  split; [exact E|].
  intros Hunknown. rewrite E. unfold Dict.get_default.
  unfold sget in Hunknown. now rewrite Hunknown.
Qed.

Lemma extract_campus_first_paren_token_witness :
  Metrics.re_search_paren (u "Reporte ") = None /\
  u "2024" <> [] /\ forallb isword (u "2024") = true /\
  sget Metrics.CAMPUS_MAPPING (upper (u "2024")) = None /\
  Metrics.extract_campus_from_region (u "Reporte (2024) Campus Monterrey (MTY)")
  = (u "2024", u "2024").
Proof.
  assert (H1 : Metrics.re_search_paren (u "Reporte ") = None) by reflexivity.
  assert (H2 : u "2024" <> []) by (vm_compute; discriminate).
  assert (H3 : forallb isword (u "2024") = true) by reflexivity.
  assert (H4 : sget Metrics.CAMPUS_MAPPING (upper (u "2024")) = None) by reflexivity.
  split; [exact H1|]. split; [exact H2|]. split; [exact H3|]. split; [exact H4|].
  exact (proj2 (extract_campus_first_paren_token Latin1 (u "Reporte ") (u "2024")
                  (u " Campus Monterrey (MTY)") H1 H2 H3) H4).
Defined.

(** C7: every display name of the metrics table, given bare, resolves to its
    own table entry. *)
Theorem extract_campus_known_display_name :
  forall code name : str,
    In (code, name) Metrics.CAMPUS_MAPPING ->
    Metrics.re_search_paren name = None /\
    Metrics.extract_campus_from_region name = (code, name).
Proof.
  intros code name Hin.
  assert (Hall : forallb (fun kv =>
            match Metrics.re_search_paren (snd kv) with
            | Some _ => false
            | None =>
                let r := Metrics.extract_campus_from_region (snd kv) in
                str_eqb (fst r) (fst kv) && str_eqb (snd r) (snd kv)
            end) Metrics.CAMPUS_MAPPING = true) by (vm_compute; reflexivity).
  rewrite forallb_forall in Hall. specialize (Hall _ Hin). simpl in Hall.
  destruct (Metrics.re_search_paren name); [discriminate|].
  split; [reflexivity|].
  apply andb_prop in Hall as [Hc Hn].
  apply str_eqb_eq in Hc. apply str_eqb_eq in Hn.
  destruct (Metrics.extract_campus_from_region name) as [c n].
  simpl in Hc, Hn. now subst.
Qed.

Lemma extract_campus_known_display_name_witness :
  In (u "SIN", u "Sinaloa") Metrics.CAMPUS_MAPPING /\
  contains (u "SIN") (upper (u "Sinaloa")) = true /\
  Metrics.extract_campus_from_region (u "Sinaloa") = (u "SIN", u "Sinaloa").
Proof.
  assert (Hin : In (u "SIN", u "Sinaloa") Metrics.CAMPUS_MAPPING)
    by (vm_compute; tauto).
  split; [exact Hin|]. split; [reflexivity|].
  exact (proj2 (extract_campus_known_display_name (u "SIN") (u "Sinaloa") Hin)).
Defined.

(* ------------------------------------------------------------------ *)
(** ** The metrics merge *)

Section MergeFacts.
Context `{PyText}.
Import Metrics.

Lemma build_previous_lookup_raise (previous_data : list metrics_row) :
  Exists (fun p => REGION p = None) previous_data ->
  forall acc, build_previous_lookup previous_data acc = Raise KeyError.
Proof.
  induction 1 as [item rest Hitem | item rest Hrest IH]; intros acc; simpl.
  - now rewrite Hitem.
  - destruct (REGION item); [apply IH | reflexivity].
Qed.

Lemma build_previous_lookup_ok (previous_data : list metrics_row) :
  Forall (fun p => REGION p <> None) previous_data ->
  forall acc, exists lk,
    build_previous_lookup previous_data acc = Ok lk /\
    forall k, sget acc k = None ->
              (forall p, In p previous_data -> REGION p <> Some k) ->
              sget lk k = None.
Proof.
  induction 1 as [|item rest Hitem Hrest IH]; intros acc; simpl.
  - exists acc. split; [reflexivity|]. auto.
  - destruct (REGION item) as [r|] eqn:Er; [|congruence].
    destruct (IH (sset acc r item)) as [lk [Hlk Hnone]].
    exists lk. split; [exact Hlk|].
    intros k Hacc Hprev. apply Hnone.
    + rewrite sget_sset. destruct (str_eqb r k) eqn:E; [|exact Hacc].
      apply str_eqb_eq in E. subst k.
      exfalso. apply (Hprev item); [now left | exact Er].
    + intros p Hp. apply Hprev. now right.
Qed.

Lemma combine_identity (lk : sdict metrics_row) (row : metrics_row) :
  (campus_id (combine lk row), campus_name (combine lk row))
  = extract_campus_from_region (region_str row).
Proof.
  unfold combine. now destruct (extract_campus_from_region (region_str row)).
Qed.

Lemma combine_current (lk : sdict metrics_row) (row : metrics_row) :
  current_month (combine lk row) = metrics_of row.
Proof.
  unfold combine. now destruct (extract_campus_from_region (region_str row)).
Qed.

Lemma combine_previous_zero (lk : sdict metrics_row) (row : metrics_row) :
  sget lk (region_str row) = None ->
  previous_year_month (combine lk row) = zero_metrics.
Proof.
  intros Hnone. unfold combine.
  destruct (extract_campus_from_region (region_str row)). simpl.
  now rewrite Hnone.
Qed.

Lemma Forall2_map_same {A B} (P : A -> B -> Prop) (f : A -> B) (l : list A) :
  (forall a, In a l -> P a (f a)) -> Forall2 P l (map f l).
Proof.
  induction l as [|a l IH]; simpl; intros HP; constructor.
  - apply HP. now left.
  - apply IH. intros b Hb. apply HP. now right.
Qed.

(** [current.get('REGION', '')] read back as a present key. *)
Definition with_region_default (row : metrics_row) : metrics_row :=
  {| REGION := Some (region_str row);
     POST_COMMENTS__SUM := POST_COMMENTS__SUM row;
     ALCANCE_TOTAL := ALCANCE_TOTAL row;
     VOLUMEN_DE_PUBLICACIONES := VOLUMEN_DE_PUBLICACIONES row;
     INTERACCIONES_TOTALES := INTERACCIONES_TOTALES row |}.

Lemma combine_with_region_default (lk : sdict metrics_row) (row : metrics_row) :
  combine lk (with_region_default row) = combine lk row.
Proof. reflexivity. Qed.

End MergeFacts.

(** C5: when the run does not abort, the merge emits one entry per current
    record, in input order, each computed from its own record (two records
    that resolve to the same code both stay); a current record whose raw
    REGION text no previous record has gets the zero counters, and so does
    every record when the previous input is empty. *)
Theorem process_metrics_one_entry_per_current :
  forall (rt : PyText) (current_data previous_data : list Metrics.metrics_row),
    Forall (fun p => Metrics.REGION p <> None) previous_data ->
    (exists out,
        Metrics.process_metrics current_data previous_data = Ok out /\
        length (Metrics.regions out) = length current_data /\
        Metrics.total_regions out = length current_data /\
        map (fun e => (Metrics.campus_id e, Metrics.campus_name e)) (Metrics.regions out)
        = map (fun row => Metrics.extract_campus_from_region (Metrics.region_str row))
              current_data /\
        map Metrics.current_month (Metrics.regions out)
        = map Metrics.metrics_of current_data /\
        Forall2 (fun row e =>
                   (forall p, In p previous_data ->
                              Metrics.REGION p <> Some (Metrics.region_str row)) ->
                   Metrics.previous_year_month e = Metrics.zero_metrics)
                current_data (Metrics.regions out))
    /\
    (exists out,
        Metrics.process_metrics current_data [] = Ok out /\
        length (Metrics.regions out) = length current_data /\
        Forall (fun e => Metrics.previous_year_month e = Metrics.zero_metrics)
               (Metrics.regions out)).
Proof.
  intros rt cur prev Hprev. split.
  - unfold Metrics.process_metrics.
    destruct (build_previous_lookup_ok prev Hprev []) as [lk [Hlk Hnone]].
    rewrite Hlk. eexists. split; [reflexivity|]. cbn [Metrics.regions Metrics.total_regions].
    rewrite length_map.
    split; [reflexivity|]. split; [reflexivity|].
    split; [|split].
    + rewrite map_map. apply map_ext. intros row. apply combine_identity.
    + rewrite map_map. apply map_ext. intros row. apply combine_current.
    + apply Forall2_map_same. intros row _ Hno.
      apply combine_previous_zero. apply Hnone; [reflexivity | exact Hno].
  - unfold Metrics.process_metrics. simpl. eexists. split; [reflexivity|].
    cbn [Metrics.regions]. rewrite length_map. split; [reflexivity|].
    apply Forall_forall. intros e He. apply in_map_iff in He as [row [<- _]].
    now apply combine_previous_zero.
Qed.

(** C9: a previous-period record without REGION aborts the run with
    [KeyError]; a current-period record without REGION is merged as if its
    REGION were the empty text, and resolves to campus UNK. *)
Theorem process_metrics_missing_region :
  forall (rt : PyText) (current_data previous_data : list Metrics.metrics_row),
    (Exists (fun p => Metrics.REGION p = None) previous_data ->
     Metrics.process_metrics current_data previous_data = Raise KeyError)
    /\
    (Forall (fun p => Metrics.REGION p <> None) previous_data ->
     exists out,
       Metrics.process_metrics current_data previous_data = Ok out /\
       Metrics.process_metrics (map with_region_default current_data) previous_data
       = Ok out /\
       forall i row,
         nth_error current_data i = Some row ->
         Metrics.REGION row = None ->
         exists e,
           nth_error (Metrics.regions out) i = Some e /\
           Metrics.campus_id e = u "UNK" /\
           Metrics.campus_name e = [] /\
           Metrics.current_month e = Metrics.metrics_of row).
Proof.
  intros rt cur prev. split.
  - intros Hex. unfold Metrics.process_metrics.
    now rewrite (build_previous_lookup_raise prev Hex []).
  - intros Hprev. unfold Metrics.process_metrics.
    destruct (build_previous_lookup_ok prev Hprev []) as [lk [Hlk _]].
    rewrite Hlk. eexists. split; [reflexivity|]. split.
    + assert (E : map (Metrics.combine lk) (map with_region_default cur)
                  = map (Metrics.combine lk) cur).
      { rewrite map_map. apply map_ext. intros row.
        apply combine_with_region_default. }
      rewrite E. reflexivity.
    + intros i row Hi Hrow. cbn [Metrics.regions].
      exists (Metrics.combine lk row). split; [now apply map_nth_error|].
      pose proof (combine_identity lk row) as Hid.
      pose proof (combine_current lk row) as Hcur.
      unfold Metrics.region_str in Hid. rewrite Hrow in Hid.
      rewrite extract_campus_from_region_nil in Hid.
      injection Hid as Hc Hn. auto.
Qed.

Section MergeExamples.
Import Metrics.

Definition row_of (region : option str) (interactions : Z) : metrics_row :=
  {| REGION := region;
     POST_COMMENTS__SUM := None;
     ALCANCE_TOTAL := None;
     VOLUMEN_DE_PUBLICACIONES := None;
     INTERACCIONES_TOTALES := Some (JInt interactions) |}.

(** Two current records that both resolve to MTY, one of them with a
    previous-period record of the same raw text. *)
Definition example_current : list metrics_row :=
  [ row_of (Some (u "Campus Monterrey (MTY)")) 500;
    row_of (Some (u "Monterrey")) 300 ].

Definition example_previous : list metrics_row :=
  [ row_of (Some (u "Monterrey")) 200 ].

Lemma process_metrics_one_entry_per_current_witness :
  Forall (fun p => REGION p <> None) example_previous /\
  exists out,
    process_metrics example_current example_previous = Ok out /\
    length (regions out) = 2 /\
    map campus_id (regions out) = [u "MTY"; u "MTY"] /\
    map previous_year_month (regions out)
    = [zero_metrics; metrics_of (row_of (Some (u "Monterrey")) 200)].
Proof.
  assert (Hprev : Forall (fun p => REGION p <> None) example_previous)
    by (repeat constructor; discriminate).
  split; [exact Hprev|].
  destruct (process_metrics_one_entry_per_current Latin1 example_current
              example_previous Hprev) as [[out [Hout [Hlen _]]] _].
  exists out. split; [exact Hout|]. split; [exact Hlen|].
  vm_compute in Hout. injection Hout as <-. split; reflexivity.
Defined.

Lemma process_metrics_missing_region_witness :
  Exists (fun p => REGION p = None) [row_of None 200] /\
  process_metrics example_current [row_of None 200] = Raise KeyError /\
  Forall (fun p => REGION p <> None) example_previous /\
  nth_error [row_of None 500] 0 = Some (row_of None 500) /\
  REGION (row_of None 500) = None /\
  exists out e,
    process_metrics [row_of None 500] example_previous = Ok out /\
    nth_error (regions out) 0 = Some e /\
    campus_id e = u "UNK" /\ campus_name e = [].
Proof.
  assert (Hex : Exists (fun p => REGION p = None) [row_of None 200])
    by (constructor; reflexivity).
  assert (Hprev : Forall (fun p => REGION p <> None) example_previous)
    by (repeat constructor; discriminate).
  split; [exact Hex|].
  split; [exact (proj1 (process_metrics_missing_region Latin1 example_current
                          [row_of None 200]) Hex)|].
  split; [exact Hprev|]. split; [reflexivity|]. split; [reflexivity|].
  destruct (proj2 (process_metrics_missing_region Latin1 [row_of None 500]
                     example_previous) Hprev) as [out [Hout [_ Hrow]]].
  destruct (Hrow 0 (row_of None 500) eq_refl eq_refl) as [e [He [Hc [Hn _]]]].
  exists out, e. auto.
Defined.

End MergeExamples.

(* ------------------------------------------------------------------ *)
(** ** The score table parser *)

Section ParserFacts.
Context `{PyText}.
Import Sdm.

(** A row that the parser treats as a campus header: at least two columns,
    the first one reading [campus] once trimmed and lowercased. *)
Definition is_campus_row (row : list str) : bool :=
  match row with
  | col0 :: _ :: _ => str_eqb (lower (strip col0)) (u "campus")
  | _ => false
  end.

(** A row whose first column reads [campus], whatever its width. *)
Definition left_is_campus (row : list str) : bool :=
  match row with
  | col0 :: _ => str_eqb (lower (strip col0)) (u "campus")
  | [] => false
  end.

(** The trimmed right column of a row. *)
Definition right_col (row : list str) : str :=
  match row with
  | _ :: col1 :: _ => strip col1
  | _ => []
  end.

(** The campuses a state holds, flushed or still accumulating, in order. *)
Definition pending (st : parser_state) : list campus_scores :=
  campuses st ++ match current_campus st with Some c => [c] | None => [] end.

Definition identity (c : campus_scores) : str * str := (campus_id c, campus_name c).

Lemma setitem_identity (c : campus_scores) (platform key : str) (v : json) :
  identity (setitem c platform key v) = identity c.
Proof.
  unfold setitem.
  repeat match goal with |- context [if ?b then _ else _] => destruct b end;
    reflexivity.
Qed.

Lemma step_pending (st : parser_state) (row : list str) :
  map identity (pending (step st row))
  = map identity (pending st)
    ++ (if is_campus_row row
        then [(map_campus_name_to_id (right_col row), right_col row)] else []).
Proof.
  destruct row as [|col0 [|col1 row]]; try (simpl; now rewrite app_nil_r).
  unfold step, is_campus_row, right_col.
  destruct (str_eqb (lower (strip col0)) (u "campus")) eqn:Ecampus.
  - unfold pending. cbn [campuses current_campus]. rewrite !map_app.
    destruct (current_campus st); simpl; rewrite ?map_app, ?app_nil_r; reflexivity.
  - rewrite app_nil_r.
    match goal with |- context [if ?b then _ else _] => destruct b end;
      [reflexivity|].
    match goal with |- context [if ?b then _ else _] => destruct b end;
      [|reflexivity].
    destruct (current_platform st) as [platform|]; [|reflexivity].
    destruct (current_campus st) as [c|] eqn:Ec; [|reflexivity].
    destruct (truthy platform); [|reflexivity].
    unfold pending. cbn [campuses current_campus]. rewrite Ec, !map_app.
    cbn [map]. now rewrite !setitem_identity.
Qed.

Lemma fold_step_pending (rows : list (list str)) (st : parser_state) :
  map identity (pending (fold_left step rows st))
  = map identity (pending st)
    ++ map (fun row => (map_campus_name_to_id (right_col row), right_col row))
           (filter is_campus_row rows).
Proof.
  revert st. induction rows as [|row rows IH]; intros st; simpl.
  - now rewrite app_nil_r.
  - rewrite IH, step_pending, <- app_assoc. f_equal.
    now destruct (is_campus_row row).
Qed.

End ParserFacts.

(** C6, as stated, fails: a one-column row reading [campus] is skipped by the
    width test, so one such row yields no entry. *)
Lemma parse_one_column_campus_row :
  length (filter left_is_campus [[u "campus"]]) = 1 /\
  Sdm.total_campuses (Sdm.parse_campus_scores_csv [[u "campus"]]) = 0 /\
  Sdm.out_campuses (Sdm.parse_campus_scores_csv [[u "campus"]]) = [].
Proof. repeat split; reflexivity. Qed.

(** C6, amended: with N rows of at least two columns whose trimmed,
    lowercased left column is [campus], the parser outputs exactly N
    entries, in file order, each named by the trimmed right column of its
    row; the last one is flushed at the end of the input. *)
Theorem parse_campus_scores_csv_one_entry_per_campus_row :
  forall (rt : PyText) (rows : list (list str)),
    length (Sdm.out_campuses (Sdm.parse_campus_scores_csv rows))
    = length (filter is_campus_row rows) /\
    Sdm.total_campuses (Sdm.parse_campus_scores_csv rows)
    = length (filter is_campus_row rows) /\
    map Sdm.campus_name (Sdm.out_campuses (Sdm.parse_campus_scores_csv rows))
    = map right_col (filter is_campus_row rows) /\
    map Sdm.campus_id (Sdm.out_campuses (Sdm.parse_campus_scores_csv rows))
    = map (fun row => Sdm.map_campus_name_to_id (right_col row))
          (filter is_campus_row rows).
Proof.
  intros rt rows.
  pose proof (fold_step_pending rows Sdm.initial_state) as Hfold.
  simpl in Hfold.
  assert (Hout : Sdm.out_campuses (Sdm.parse_campus_scores_csv rows)
                 = pending (fold_left Sdm.step rows Sdm.initial_state)).
  { unfold Sdm.parse_campus_scores_csv, pending. cbn [Sdm.out_campuses].
    destruct (Sdm.current_campus _); [reflexivity | now rewrite app_nil_r]. }
  assert (Hlen : length (Sdm.out_campuses (Sdm.parse_campus_scores_csv rows))
                 = length (filter is_campus_row rows)).
  { rewrite Hout. apply (f_equal (@length _)) in Hfold.
    now rewrite !length_map in Hfold. }
  split; [exact Hlen|]. split; [exact Hlen|]. rewrite Hout. split.
  - apply (f_equal (map snd)) in Hfold. rewrite !map_map in Hfold. exact Hfold.
  - apply (f_equal (map fst)) in Hfold. rewrite !map_map in Hfold. exact Hfold.
Qed.

(* ------------------------------------------------------------------ *)
(** ** Grouping into nested insertion-ordered dicts *)

Section Grouping.
Variable X : Type.

(** A filed record: campus, platform, payload. *)
Definition event : Type := str * str * X.
Definition ev_campus (e : event) : str := fst (fst e).
Definition ev_platform (e : event) : str := snd (fst e).
Definition ev_post (e : event) : X := snd e.

Definition mem (k : str) (ks : list str) : bool := existsb (str_eqb k) ks.

(** The distinct elements of a list, in order of first occurrence. *)
Definition seen (l : list str) : list str :=
  fold_left (fun acc k => if mem k acc then acc else acc ++ [k]) l [].

Definition tabulate {V} (f : str -> V) (ks : list str) : sdict V :=
  map (fun k => (k, f k)) ks.

Definition of_campus (c : str) (e : event) : bool := str_eqb (ev_campus e) c.

Definition of_campus_platform (c p : str) (e : event) : bool :=
  str_eqb (ev_campus e) c && str_eqb (ev_platform e) p.

Definition campuses_seen (evs : list event) : list str :=
  seen (map ev_campus evs).

Definition platforms_seen (c : str) (evs : list event) : list str :=
  seen (map ev_platform (filter (of_campus c) evs)).

Definition posts_of (c p : str) (evs : list event) : list X :=
  map ev_post (filter (of_campus_platform c p) evs).

Definition platforms_of (c : str) (evs : list event) : sdict (list X) :=
  tabulate (fun p => posts_of c p evs) (platforms_seen c evs).

(** What the nested dict holds after the records [evs] were filed. *)
Definition grouped (evs : list event) : sdict (sdict (list X)) :=
  tabulate (fun c => platforms_of c evs) (campuses_seen evs).

(** Filing one record, as [add_post] does. *)
Definition file_event (d : sdict (sdict (list X))) (e : event) :=
  let platforms := Dict.get_default str_eqb d (ev_campus e) [] in
  let posts := Dict.get_default str_eqb platforms (ev_platform e) [] in
  sset d (ev_campus e) (sset platforms (ev_platform e) (posts ++ [ev_post e])).

Lemma mem_In (k : str) (ks : list str) : mem k ks = true <-> In k ks.
Proof.
  unfold mem. rewrite existsb_exists. split.
  - intros [x [Hx E]]. apply str_eqb_eq in E. now subst.
  - intros Hin. exists k. split; [exact Hin | apply str_eqb_refl].
Qed.

Lemma mem_app (k : str) (a b : list str) : mem k (a ++ b) = mem k a || mem k b.
Proof. apply existsb_app. Qed.

Lemma seen_snoc (l : list str) (k : str) :
  seen (l ++ [k]) = if mem k (seen l) then seen l else seen l ++ [k].
Proof. unfold seen. now rewrite fold_left_app. Qed.

Lemma mem_seen (k : str) (l : list str) : mem k (seen l) = mem k l.
Proof.
  induction l as [|x l IH] using rev_ind; [reflexivity|].
  rewrite seen_snoc, mem_app. simpl. rewrite orb_false_r.
  destruct (mem x (seen l)) eqn:Ex.
  - rewrite IH. destruct (str_eqb k x) eqn:E; [|now rewrite orb_false_r].
    apply str_eqb_eq in E. subst. rewrite <- IH, Ex. reflexivity.
  - rewrite mem_app, IH. simpl. now rewrite orb_false_r.
Qed.

Lemma In_seen (k : str) (l : list str) : In k (seen l) <-> In k l.
Proof. now rewrite <- !mem_In, mem_seen. Qed.

Lemma NoDup_seen (l : list str) : NoDup (seen l).
Proof.
  induction l as [|x l IH] using rev_ind; [constructor|].
  rewrite seen_snoc. destruct (mem x (seen l)) eqn:Ex; [exact IH|].
  apply NoDup_app; [exact IH | repeat constructor; intros [] | ].
  intros k Hk [<-|[]]. apply mem_In in Hk. congruence.
Qed.

Lemma fold_seen_head (l acc : list str) :
  acc <> [] ->
  hd_error (fold_left (fun acc k => if mem k acc then acc else acc ++ [k]) l acc)
  = hd_error acc.
Proof.
  revert acc. induction l as [|k l IH]; intros acc Hacc; [reflexivity|].
  cbn [fold_left]. rewrite IH.
  - destruct (mem k acc); [reflexivity|]. destruct acc; [congruence | reflexivity].
  - destruct (mem k acc); [exact Hacc|]. destruct acc; discriminate.
Qed.

(** The first element seen is the first element. *)
Lemma seen_head (l : list str) : hd_error (seen l) = hd_error l.
Proof.
  destruct l as [|k l]; [reflexivity|].
  unfold seen. cbn [fold_left mem existsb app]. now rewrite fold_seen_head.
Qed.

Lemma tabulate_ext {V} (f g : str -> V) (ks : list str) :
  (forall k, In k ks -> f k = g k) -> tabulate f ks = tabulate g ks.
Proof.
  intros Hfg. unfold tabulate. apply map_ext_in. intros k Hk. now rewrite Hfg.
Qed.

Lemma get_tabulate {V} (f : str -> V) (ks : list str) (k : str) :
  sget (tabulate f ks) k = if mem k ks then Some (f k) else None.
Proof.
  unfold sget. induction ks as [|k0 ks IH]; simpl; [reflexivity|].
  rewrite (str_eqb_sym k k0). destruct (str_eqb k0 k) eqn:E; simpl.
  - apply str_eqb_eq in E. now subst.
  - exact IH.
Qed.

Lemma set_tabulate {V} (f g : str -> V) (ks : list str) (k : str) (v : V) :
  NoDup ks -> g k = v -> (forall k', k' <> k -> g k' = f k') ->
  sset (tabulate f ks) k v = tabulate g (if mem k ks then ks else ks ++ [k]).
Proof.
  intros Hnd Hgk Hg. unfold sset.
  induction ks as [|k0 ks IH]; simpl.
  - now rewrite Hgk.
  - rewrite (str_eqb_sym k k0). inversion Hnd as [|? ? Hnotin Hnd']; subst.
    destruct (str_eqb k0 k) eqn:E; simpl.
    + apply str_eqb_eq in E. subst k0. f_equal.
      fold (tabulate f ks). fold (tabulate g ks).
      apply tabulate_ext. intros k' Hk'. symmetry. apply Hg.
      intros ->. contradiction.
    + apply str_eqb_neq in E. rewrite (IH Hnd'), <- (Hg k0 E).
      now destruct (mem k ks).
Qed.

Lemma not_seen_campus (c : str) (evs : list event) :
  mem c (campuses_seen evs) = false -> filter (of_campus c) evs = [].
Proof.
  unfold campuses_seen. rewrite mem_seen. intros Hm.
  induction evs as [|e evs IH]; simpl in *; [reflexivity|].
  apply orb_false_elim in Hm as [He Hm]. unfold of_campus at 1.
  rewrite str_eqb_sym, He. now apply IH.
Qed.

Lemma not_seen_platform (c p : str) (evs : list event) :
  mem p (platforms_seen c evs) = false -> posts_of c p evs = [].
Proof.
  unfold platforms_seen, posts_of. rewrite mem_seen. intros Hm.
  induction evs as [|e evs IH]; simpl in *; [reflexivity|].
  unfold of_campus_platform at 1. unfold of_campus at 1 in Hm.
  destruct (str_eqb (ev_campus e) c); simpl in *; [|now apply IH].
  apply orb_false_elim in Hm as [He Hm].
  rewrite str_eqb_sym, He. now apply IH.
Qed.

Lemma platforms_seen_snoc (c : str) (evs : list event) (e : event) :
  platforms_seen c (evs ++ [e])
  = if of_campus c e
    then (if mem (ev_platform e) (platforms_seen c evs)
          then platforms_seen c evs
          else platforms_seen c evs ++ [ev_platform e])
    else platforms_seen c evs.
Proof.
  unfold platforms_seen. rewrite filter_app. simpl.
  destruct (of_campus c e).
  - rewrite map_app. cbn [map]. apply seen_snoc.
  - now rewrite app_nil_r.
Qed.

Lemma posts_of_snoc (c p : str) (evs : list event) (e : event) :
  posts_of c p (evs ++ [e])
  = posts_of c p evs ++ (if of_campus_platform c p e then [ev_post e] else []).
Proof.
  unfold posts_of. rewrite filter_app, map_app. simpl.
  now destruct (of_campus_platform c p e).
Qed.

Lemma platforms_of_snoc_other (c : str) (evs : list event) (e : event) :
  c <> ev_campus e -> platforms_of c (evs ++ [e]) = platforms_of c evs.
Proof.
  intros Hne. unfold platforms_of.
  assert (Hc : of_campus c e = false).
  { unfold of_campus. apply str_eqb_neq. congruence. }
  rewrite platforms_seen_snoc, Hc. apply tabulate_ext. intros p _.
  rewrite posts_of_snoc. unfold of_campus_platform. unfold of_campus in Hc.
  rewrite Hc. simpl. apply app_nil_r.
Qed.

Lemma file_event_grouped (evs : list event) (e : event) :
  file_event (grouped evs) e = grouped (evs ++ [e]).
Proof.
  destruct e as [[c p] x]. unfold file_event. cbn [ev_campus ev_platform ev_post fst snd].
  assert (Hplatforms : Dict.get_default str_eqb (grouped evs) c [] = platforms_of c evs).
  { unfold Dict.get_default, grouped. fold (sget (tabulate (fun c => platforms_of c evs)
                                                    (campuses_seen evs)) c).
    rewrite get_tabulate. destruct (mem c (campuses_seen evs)) eqn:Ec; [reflexivity|].
    unfold platforms_of, platforms_seen. now rewrite (not_seen_campus _ _ Ec). }
  rewrite Hplatforms.
  assert (Hposts : Dict.get_default str_eqb (platforms_of c evs) p [] = posts_of c p evs).
  { unfold Dict.get_default, platforms_of.
    fold (sget (tabulate (fun p => posts_of c p evs) (platforms_seen c evs)) p).
    rewrite get_tabulate. destruct (mem p (platforms_seen c evs)) eqn:Ep; [reflexivity|].
    now rewrite (not_seen_platform _ _ _ Ep). }
  rewrite Hposts.
  assert (Hcc : of_campus c (c, p, x) = true) by apply str_eqb_refl.
  assert (Hinner : sset (platforms_of c evs) p (posts_of c p evs ++ [x])
                   = platforms_of c (evs ++ [(c, p, x)])).
  { unfold platforms_of at 2. rewrite platforms_seen_snoc, Hcc.
    cbn [ev_platform fst snd].
    apply set_tabulate.
    - apply NoDup_seen.
    - rewrite posts_of_snoc. unfold of_campus_platform. cbn [ev_campus ev_platform ev_post fst snd].
      now rewrite !str_eqb_refl.
    - intros p' Hp'. rewrite posts_of_snoc. unfold of_campus_platform.
      cbn [ev_campus ev_platform fst snd].
      assert (E : str_eqb p p' = false) by (apply str_eqb_neq; congruence).
      rewrite E, andb_false_r. apply app_nil_r. }
  rewrite Hinner. unfold grouped at 2, campuses_seen.
  rewrite map_app. cbn [map ev_campus fst]. rewrite seen_snoc.
  apply set_tabulate.
  - apply NoDup_seen.
  - reflexivity.
  - intros c' Hc'. now apply platforms_of_snoc_other.
Qed.

Lemma fold_file_event (evs : list event) :
  fold_left file_event evs [] = grouped evs.
Proof.
  induction evs as [|e evs IH] using rev_ind; [reflexivity|].
  now rewrite fold_left_app, IH; simpl; rewrite file_event_grouped.
Qed.

End Grouping.

Arguments ev_campus {X} e.
Arguments ev_platform {X} e.
Arguments ev_post {X} e.
Arguments of_campus {X} c e.
Arguments of_campus_platform {X} c p e.
Arguments campuses_seen {X} evs.
Arguments platforms_seen {X} c evs.
Arguments posts_of {X} c p evs.
Arguments platforms_of {X} c evs.
Arguments grouped {X} evs.
Arguments file_event {X} d e.

(* ------------------------------------------------------------------ *)
(** ** The stable descending sort and truncation *)

Section SortFacts.
Variable A : Type.
Variable key : A -> Z.
Import Publications.

Definition has_key (v : Z) (a : A) : bool := (key a =? v)%Z.

(** [b] does not outrank [a]. *)
Definition desc (a b : A) : Prop := (key b <= key a)%Z.

Lemma insert_desc_perm (x : A) (l : list A) :
  Permutation (insert_desc key x l) (x :: l).
Proof.
  induction l as [|y l IH]; simpl; [reflexivity|].
  destruct (key y <=? key x)%Z; [reflexivity|].
  rewrite IH. apply perm_swap.
Qed.

Lemma sorted_desc_perm (l : list A) : Permutation (sorted_desc key l) l.
Proof.
  induction l as [|x l IH]; simpl; [reflexivity|].
  rewrite insert_desc_perm. now constructor.
Qed.

Lemma insert_desc_sorted (x : A) (l : list A) :
  StronglySorted desc l -> StronglySorted desc (insert_desc key x l).
Proof.
  induction 1 as [|y l Hl IH Hy]; simpl.
  - repeat constructor.
  - destruct (Z.leb_spec (key y) (key x)) as [Hle|Hgt].
    + constructor; [now constructor|].
      constructor; [exact Hle|].
      rewrite Forall_forall in Hy |- *. intros z Hz. specialize (Hy z Hz).
      unfold desc in *. lia.
    + constructor; [exact IH|].
      rewrite Forall_forall in Hy |- *. intros z Hz.
      apply (Permutation_in _ (insert_desc_perm x l)) in Hz as [<-|Hz].
      * unfold desc. lia.
      * now apply Hy.
Qed.

Lemma sorted_desc_sorted (l : list A) : StronglySorted desc (sorted_desc key l).
Proof.
  induction l as [|x l IH]; simpl; [constructor | now apply insert_desc_sorted].
Qed.

Lemma insert_desc_stable (v : Z) (x : A) (l : list A) :
  filter (has_key v) (insert_desc key x l) = filter (has_key v) (x :: l).
Proof.
  induction l as [|y l IH]; [reflexivity|].
  cbn [insert_desc]. destruct (Z.leb_spec (key y) (key x)) as [Hle|Hgt];
    [reflexivity|].
  cbn [filter] in *. rewrite IH. unfold has_key.
  destruct (Z.eqb_spec (key x) v), (Z.eqb_spec (key y) v); try reflexivity. lia.
Qed.

(** Records of equal key keep their input order. *)
Lemma sorted_desc_stable (v : Z) (l : list A) :
  filter (has_key v) (sorted_desc key l) = filter (has_key v) l.
Proof.
  induction l as [|x l IH]; [reflexivity|].
  cbn [sorted_desc fold_right]. fold (sorted_desc key l).
  rewrite insert_desc_stable. cbn [filter]. now rewrite IH.
Qed.

Lemma firstn_sorted (n : nat) (l : list A) :
  StronglySorted desc l -> StronglySorted desc (firstn n l).
Proof.
  intros Hl. revert n. induction Hl as [|y l Hl IH Hy]; intros [|n]; simpl;
    try constructor.
  - apply IH.
  - rewrite Forall_forall in Hy |- *. intros z Hz. apply Hy.
    rewrite <- (firstn_skipn n l). apply in_or_app. now left.
Qed.

Lemma firstn_filter_prefix (f : A -> bool) (n : nat) (l : list A) :
  filter f l = filter f (firstn n l) ++ filter f (skipn n l).
Proof. now rewrite <- filter_app, firstn_skipn. Qed.

Lemma In_firstn_sorted_desc (n : nat) (l : list A) (a : A) :
  In a (firstn n (sorted_desc key l)) -> In a l.
Proof.
  intros Hin. apply (Permutation_in _ (sorted_desc_perm l)).
  rewrite <- (firstn_skipn n (sorted_desc key l)). apply in_or_app. now left.
Qed.

End SortFacts.

Arguments has_key {A} key v a.
Arguments desc {A} key a b.

(* ------------------------------------------------------------------ *)
(** ** The publications pipeline *)

Section SelectorFacts.
Context `{PyText}.
Import Publications.

(** The records that survive the first loop, in input order, each with the
    campus and the platform it is filed under. *)
Definition events (pubs : list raw_pub) : list (event filtered_pub) :=
  flat_map (fun pub => match classify pub with Some e => [e] | None => [] end) pubs.

(** The campus codes, in order of first kept record. *)
Definition campus_order (pubs : list raw_pub) : list str :=
  campuses_seen (events pubs).

(** The platforms of a campus, in order of first kept record. *)
Definition platform_order (c : str) (pubs : list raw_pub) : list str :=
  platforms_seen c (events pubs).

(** The kept records of a campus on a platform, in input order. *)
Definition kept (c p : str) (pubs : list raw_pub) : list filtered_pub :=
  posts_of c p (events pubs).

(** The platform an output record was filed under is read off its
    [SOCIAL_NETWORK]. *)
Definition is_platform (p : str) (x : filtered_pub) : bool :=
  match platform_of (lower (SOCIAL_NETWORK x)) with
  | Some q => str_eqb q p
  | None => false
  end.

(** The platform test of the first loop, on a raw record. *)
Definition qualifies (pub : raw_pub) : bool :=
  contains (u "instagram") (lower (get_text (in_SOCIAL_NETWORK pub)))
  || contains (u "facebook") (lower (get_text (in_SOCIAL_NETWORK pub))).

Definition top4 (l : list filtered_pub) : list filtered_pub :=
  firstn 4 (sorted_desc engagement_score l).

Lemma platform_of_cases (s p : str) :
  platform_of s = Some p -> p = u "instagram" \/ p = u "facebook".
Proof.
  unfold platform_of.
  destruct (contains (u "instagram") s); [intros [= <-]; now left|].
  destruct (contains (u "facebook") s); [intros [= <-]; now right | discriminate].
Qed.

Lemma platform_of_contains (s p : str) :
  platform_of s = Some p ->
  contains (u "instagram") s || contains (u "facebook") s = true.
Proof.
  unfold platform_of.
  destruct (contains (u "instagram") s); [reflexivity|].
  destruct (contains (u "facebook") s); [reflexivity | discriminate].
Qed.

Lemma classify_platform (pub : raw_pub) (c p : str) (x : filtered_pub) :
  classify pub = Some (c, p, x) ->
  platform_of (lower (SOCIAL_NETWORK x)) = Some p /\
  SOCIAL_NETWORK x = get_text (in_SOCIAL_NETWORK pub).
Proof.
  unfold classify. destruct (re_search_campus _); [|discriminate].
  destruct (platform_of _) eqn:Ep; [|discriminate].
  intros [= <- <- <-]. simpl. now split.
Qed.

Lemma classify_unqualified (pub : raw_pub) :
  qualifies pub = false -> classify pub = None.
Proof.
  unfold qualifies, classify, platform_of. intros Hq.
  apply orb_false_elim in Hq as [Hi Hf]. rewrite Hi, Hf.
  now destruct (re_search_campus _).
Qed.

Lemma In_events (e : event filtered_pub) (pubs : list raw_pub) :
  In e (events pubs) <-> exists pub, In pub pubs /\ classify pub = Some e.
Proof.
  unfold events. rewrite in_flat_map. split; intros [pub [Hin He]]; exists pub;
    (split; [exact Hin|]).
  - destruct (classify pub); [destruct He as [->|[]]; reflexivity | destruct He].
  - rewrite He. now left.
Qed.

Lemma events_platform (pubs : list raw_pub) (e : event filtered_pub) :
  In e (events pubs) ->
  platform_of (lower (SOCIAL_NETWORK (ev_post e))) = Some (ev_platform e).
Proof.
  intros He. apply In_events in He as [pub [_ Hc]].
  destruct e as [[c p] x]. now apply classify_platform in Hc as [Hp _].
Qed.

Lemma In_kept (c p : str) (pubs : list raw_pub) (x : filtered_pub) :
  In x (kept c p pubs) -> platform_of (lower (SOCIAL_NETWORK x)) = Some p.
Proof.
  unfold kept, posts_of. rewrite in_map_iff. intros [e [<- He]].
  apply filter_In in He as [He Hcp].
  unfold of_campus_platform in Hcp. apply andb_prop in Hcp as [_ Hp].
  apply str_eqb_eq in Hp. rewrite <- Hp. now apply (events_platform pubs).
Qed.

Lemma In_platform_order (c p : str) (pubs : list raw_pub) :
  In p (platform_order c pubs) -> p = u "instagram" \/ p = u "facebook".
Proof.
  unfold platform_order, platforms_seen. rewrite In_seen, in_map_iff.
  intros [e [<- He]]. apply filter_In in He as [He _].
  exact (platform_of_cases _ _ (events_platform pubs e He)).
Qed.

Lemma group_events (pubs : list raw_pub) (d : sdict (sdict (list filtered_pub))) :
  fold_left group_step pubs d = fold_left (@file_event filtered_pub) (events pubs) d.
Proof.
  revert d. induction pubs as [|pub pubs IH]; intros d; [reflexivity|].
  cbn [fold_left events flat_map]. fold (events pubs).
  rewrite fold_left_app, IH. f_equal.
  unfold group_step. destruct (classify pub) as [[[c p] x]|]; reflexivity.
Qed.

Lemma group_by_campus_platform_grouped (pubs : list raw_pub) :
  group_by_campus_platform pubs = grouped (events pubs).
Proof.
  unfold group_by_campus_platform. now rewrite group_events, fold_file_event.
Qed.

Lemma top_posts_tabulate (f : str -> list filtered_pub) (ps : list str) :
  (forall p, In p ps -> p = u "instagram" \/ p = u "facebook") ->
  top_posts (tabulate f ps) = flat_map (fun p => top4 (f p)) ps.
Proof.
  unfold top_posts. induction ps as [|p ps IH]; intros Hps; [reflexivity|].
  cbn [tabulate map flat_map fst snd]. f_equal.
  - destruct (Hps p (or_introl eq_refl)) as [-> | ->]; reflexivity.
  - apply IH. intros q Hq. apply Hps. now right.
Qed.

(** The output, campus by campus and platform by platform. *)
Lemma filter_publications_spec (pubs : list raw_pub) :
  filter_publications pubs
  = map (fun c => {| campus_id := c;
                     publications :=
                       flat_map (fun p => top4 (kept c p pubs)) (platform_order c pubs) |})
        (campus_order pubs).
Proof.
  unfold filter_publications. rewrite group_by_campus_platform_grouped.
  unfold grouped, tabulate at 1. rewrite map_map. apply map_ext. intros c.
  cbn [fst snd]. f_equal. unfold platforms_of.
  apply top_posts_tabulate. intros p. apply In_platform_order.
Qed.

Lemma filter_none {A} (f : A -> bool) (l : list A) :
  (forall x, In x l -> f x = false) -> filter f l = [].
Proof.
  induction l as [|a l IH]; intros Hf; [reflexivity|].
  cbn [filter]. rewrite (Hf a (or_introl eq_refl)).
  apply IH. intros x Hx. apply Hf. now right.
Qed.

Lemma filter_select (F : str -> list filtered_pub) (ps : list str) (p : str) :
  NoDup ps ->
  (forall q x, In q ps -> In x (F q) -> is_platform p x = str_eqb q p) ->
  filter (is_platform p) (flat_map F ps) = if mem p ps then F p else [].
Proof.
  intros Hnd HF. induction ps as [|q ps IH]; [reflexivity|].
  inversion Hnd as [|? ? Hq Hnd']; subst.
  cbn [flat_map mem existsb]. rewrite filter_app. fold (mem p ps).
  rewrite IH; [|exact Hnd'|intros r x Hr; apply HF; now right].
  rewrite (str_eqb_sym p q). destruct (str_eqb q p) eqn:E.
  - apply str_eqb_eq in E. subst q.
    assert (Hm : mem p ps = false).
    { destruct (mem p ps) eqn:Em; [|reflexivity]. apply mem_In in Em. contradiction. }
    rewrite Hm, app_nil_r. cbn [orb].
    apply forallb_filter_id. apply forallb_forall. intros x Hx.
    rewrite (HF p x (or_introl eq_refl) Hx). apply str_eqb_refl.
  - cbn [orb].
    assert (Hnil : filter (is_platform p) (F q) = []).
    { apply filter_none. intros x Hx.
      now rewrite (HF q x (or_introl eq_refl) Hx). }
    now rewrite Hnil.
Qed.

(** The records of one platform in a campus's output list. *)
Lemma filter_platform_publications (c p : str) (pubs : list raw_pub) :
  filter (is_platform p)
         (flat_map (fun q => top4 (kept c q pubs)) (platform_order c pubs))
  = top4 (kept c p pubs).
Proof.
  rewrite filter_select.
  - destruct (mem p (platform_order c pubs)) eqn:Em; [reflexivity|].
    unfold kept. now rewrite (not_seen_platform _ _ _ _ Em).
  - apply NoDup_seen.
  - intros q x _ Hx. apply In_firstn_sorted_desc in Hx.
    unfold is_platform. now rewrite (In_kept _ _ _ _ Hx).
Qed.

Lemma length_two_platforms (l : list filtered_pub) :
  (forall x, In x l ->
     is_platform (u "instagram") x = negb (is_platform (u "facebook") x)) ->
  length l = length (filter (is_platform (u "instagram")) l)
             + length (filter (is_platform (u "facebook")) l).
Proof.
  induction l as [|x l IH]; intros Hx; [reflexivity|].
  cbn [filter]. rewrite (Hx x (or_introl eq_refl)).
  destruct (is_platform (u "facebook") x); cbn [negb length];
    rewrite IH by (intros y Hy; apply Hx; now right); lia.
Qed.

End SelectorFacts.

Section SelectorExamples.
Import Publications.

Definition post_of (account network : string) (interactions reach : Z) : raw_pub :=
  {| in_ACCOUNT := Some (u account);
     in_SOCIAL_NETWORK := Some (u network);
     in_INTERACCIONES_GENERAL__SUM := Some (Some interactions);
     in_ALCANCE_GENERAL__SUM := Some (Some reach);
     in_PUBLISHEDTIME := None;
     in_OUTBOUND_POST := None |}.

(** A campus whose first record is a Facebook one. *)
Definition facebook_first : list raw_pub :=
  [ post_of "Tec Campus GDL [FB]" "Facebook" 1 10;
    post_of "Tec Campus GDL [IG]" "Instagram" 2 20 ].

(** Five Instagram records of one campus with scores 10, 50, 30, 20, 40,
    then a record of another network. *)
Definition five_instagram : list raw_pub :=
  [ post_of "Tec Campus GDL [IG]" "Instagram" 0 10;
    post_of "Tec Campus GDL [IG]" "Instagram" 0 50;
    post_of "Tec Campus GDL [IG]" "Instagram" 0 30;
    post_of "Tec Campus GDL [IG]" "Instagram" 0 20;
    post_of "Tec Campus GDL [IG]" "Instagram" 0 40;
    post_of "Tec Campus MTY [TW]" "Twitter" 9 90 ].

End SelectorExamples.

(** C1, as stated, fails: the platforms of a campus come out in the order in
    which they were first filed, so a campus whose first kept record is a
    Facebook one has its Facebook records first. *)
Lemma filter_publications_facebook_first :
  exists g,
    Publications.filter_publications facebook_first = [g] /\
    Publications.campus_id g = u "GDL" /\
    map Publications.SOCIAL_NETWORK (Publications.publications g)
    = [u "Facebook"; u "Instagram"] /\
    Publications.publications g
    <> top4 (kept (u "GDL") (u "instagram") facebook_first)
       ++ top4 (kept (u "GDL") (u "facebook") facebook_first) /\
    Publications.publications g
    <> filter (is_platform (u "instagram")) (Publications.publications g)
       ++ filter (is_platform (u "facebook")) (Publications.publications g).
Proof.
  exists (hd {| Publications.campus_id := []; Publications.publications := [] |}
             (Publications.filter_publications facebook_first)).
  split; [reflexivity|]. split; [reflexivity|]. split; [reflexivity|].
  split; vm_compute; discriminate.
Qed.

(** C1, amended: the output has one group per campus, in order of first kept
    record; its publications list is the concatenation, over the platforms
    of the campus in the order in which each first occurs among the campus's
    kept records, of the top four records of that platform. Each platform
    occurs once, the first one is the platform of the campus's first kept
    record, and a platform occurs exactly when it is Instagram or Facebook
    and the campus has a kept record of it. *)
Theorem filter_publications_platforms_in_first_seen_order :
  forall (rt : PyText) (pubs : list Publications.raw_pub),
    Publications.filter_publications pubs
    = map (fun c =>
             {| Publications.campus_id := c;
                Publications.publications :=
                  flat_map (fun p => top4 (kept c p pubs)) (platform_order c pubs) |})
          (campus_order pubs)
    /\ forall c,
         NoDup (platform_order c pubs) /\
         hd_error (platform_order c pubs)
         = hd_error (map ev_platform (filter (of_campus c) (events pubs))) /\
         (forall p, In p (platform_order c pubs) <->
                    (p = u "instagram" \/ p = u "facebook") /\ kept c p pubs <> []).
Proof.
  intros rt pubs. split; [apply filter_publications_spec|].
  intros c. split; [apply NoDup_seen|]. split; [apply seen_head|].
  intros p. split.
  - intros Hp. split; [exact (In_platform_order c p pubs Hp)|].
    unfold platform_order, platforms_seen in Hp.
    rewrite In_seen, in_map_iff in Hp. destruct Hp as [e [Hep He]].
    apply filter_In in He as [He Hc].
    intros Hnil.
    assert (Hin : In (ev_post e) (kept c p pubs)).
    { unfold kept, posts_of. apply in_map, filter_In. split; [exact He|].
      unfold of_campus_platform. unfold of_campus in Hc. rewrite Hc, Hep.
      apply str_eqb_refl. }
    rewrite Hnil in Hin. destruct Hin.
  - intros [_ Hne]. apply mem_In.
    destruct (mem p (platform_order c pubs)) eqn:Em; [reflexivity|].
    exfalso. apply Hne. unfold kept. now apply not_seen_platform.
Qed.

(** C3: in every output group, the records of each platform are the first
    four of the campus's kept records of that platform sorted by decreasing
    engagement score: at most 4 per platform and 8 in all, scores never
    increasing, and records of equal score in their input order. *)
Theorem filter_publications_quota_and_order :
  forall (rt : PyText) (pubs : list Publications.raw_pub) (g : Publications.campus_group),
    In g (Publications.filter_publications pubs) ->
    length (Publications.publications g) <= 8 /\
    forall p, p = u "instagram" \/ p = u "facebook" ->
      let sub := filter (is_platform p) (Publications.publications g) in
      sub = top4 (kept (Publications.campus_id g) p pubs) /\
      length sub <= 4 /\
      StronglySorted (desc Publications.engagement_score) sub /\
      forall v, exists later,
        filter (has_key Publications.engagement_score v)
               (kept (Publications.campus_id g) p pubs)
        = filter (has_key Publications.engagement_score v) sub ++ later.
Proof.
  intros rt pubs g Hg.
  rewrite filter_publications_spec in Hg. apply in_map_iff in Hg as [c [<- _]].
  cbn [Publications.publications Publications.campus_id].
  assert (Hsub : forall p,
             filter (is_platform p)
                    (flat_map (fun q => top4 (kept c q pubs)) (platform_order c pubs))
             = top4 (kept c p pubs)) by (intros p; apply filter_platform_publications).
  assert (Hlen : forall p, length (top4 (kept c p pubs)) <= 4)
    by (intros p; apply firstn_le_length).
  split.
  - rewrite length_two_platforms.
    + rewrite !Hsub. pose proof (Hlen (u "instagram")). pose proof (Hlen (u "facebook")). lia.
    + intros x Hx. apply in_flat_map in Hx as [q [Hq Hx]].
      apply In_firstn_sorted_desc, In_kept in Hx. unfold is_platform. rewrite Hx.
      destruct (In_platform_order c q pubs Hq) as [-> | ->]; reflexivity.
  - intros p _. rewrite Hsub.
    split; [reflexivity|]. split; [apply Hlen|]. split.
    + apply firstn_sorted, sorted_desc_sorted.
    + intros v. eexists.
      rewrite <- (sorted_desc_stable _ Publications.engagement_score v (kept c p pubs)).
      apply firstn_filter_prefix.
Qed.

Lemma filter_publications_quota_and_order_witness :
  exists g,
    In g (Publications.filter_publications five_instagram) /\
    Publications.campus_id g = u "GDL" /\
    map Publications.engagement_score
        (filter (is_platform (u "instagram")) (Publications.publications g))
    = [50; 40; 30; 20]%Z /\
    length (Publications.publications g) <= 8 /\
    StronglySorted (desc Publications.engagement_score)
                   (filter (is_platform (u "instagram")) (Publications.publications g)).
Proof.
  pose (g := hd {| Publications.campus_id := []; Publications.publications := [] |}
                (Publications.filter_publications five_instagram)).
  assert (Hg : In g (Publications.filter_publications five_instagram))
    by (vm_compute; left; reflexivity).
  exists g. split; [exact Hg|]. split; [reflexivity|]. split; [reflexivity|].
  destruct (filter_publications_quota_and_order Latin1 five_instagram g Hg)
    as [Hlen Hp].
  split; [exact Hlen|].
  destruct (Hp (u "instagram") (or_introl eq_refl)) as [_ [_ [Hsorted _]]].
  exact Hsorted.
Defined.

(** C8: every emitted record has instagram or facebook in its lowercased
    SOCIAL_NETWORK; the raw records that have neither change nothing in the
    output; a campus appears exactly when one of its records is kept, and
    then with at least one publication. *)
Theorem filter_publications_platform_filter :
  forall (rt : PyText) (pubs : list Publications.raw_pub),
    (forall g x,
        In g (Publications.filter_publications pubs) ->
        In x (Publications.publications g) ->
        contains (u "instagram") (lower (Publications.SOCIAL_NETWORK x)) = true \/
        contains (u "facebook") (lower (Publications.SOCIAL_NETWORK x)) = true)
    /\ Publications.filter_publications (filter qualifies pubs)
       = Publications.filter_publications pubs
    /\ (forall c,
          In c (map Publications.campus_id (Publications.filter_publications pubs)) <->
          exists pub p x, In pub pubs /\ Publications.classify pub = Some (c, p, x))
    /\ (forall g, In g (Publications.filter_publications pubs) ->
                  Publications.publications g <> []).
Proof.
  intros rt pubs. split; [|split; [|split]].
  - intros g x Hg Hx.
    rewrite filter_publications_spec in Hg. apply in_map_iff in Hg as [c [<- _]].
    cbn [Publications.publications] in Hx.
    apply in_flat_map in Hx as [q [_ Hx]].
    apply In_firstn_sorted_desc, In_kept, platform_of_contains in Hx.
    now apply orb_true_iff in Hx.
  - assert (Hev : events (filter qualifies pubs) = events pubs).
    { unfold events. induction pubs as [|pub pubs IH]; [reflexivity|].
      cbn [filter flat_map]. destruct (qualifies pub) eqn:Hq.
      - cbn [flat_map]. now rewrite IH.
      - now rewrite (classify_unqualified pub Hq). }
    rewrite !filter_publications_spec.
    unfold campus_order, platform_order, kept. now rewrite Hev.
  - intros c. rewrite filter_publications_spec, map_map. cbn [Publications.campus_id].
    rewrite map_id. unfold campus_order, campuses_seen.
    rewrite In_seen, in_map_iff. split.
    + intros [[[c' p] x] [<- He]]. apply In_events in He as [pub [Hin Hc]].
      now exists pub, p, x.
    + intros [pub [p [x [Hin Hc]]]]. exists (c, p, x). split; [reflexivity|].
      apply In_events. now exists pub.
  - intros g Hg.
    rewrite filter_publications_spec in Hg. apply in_map_iff in Hg as [c [<- Hc]].
    cbn [Publications.publications].
    unfold campus_order, campuses_seen in Hc.
    rewrite In_seen, in_map_iff in Hc. destruct Hc as [[[c' p] x] [Hcc He]].
    cbn [ev_campus fst] in Hcc. subst c'.
    assert (Hkept : In x (kept c p pubs)).
    { unfold kept, posts_of.
      change x with (ev_post (c, p, x)) at 1. apply in_map, filter_In.
      split; [exact He|]. unfold of_campus_platform. cbn [ev_campus ev_platform fst snd].
      now rewrite !str_eqb_refl. }
    assert (Hp : In p (platform_order c pubs)).
    { apply mem_In. destruct (mem p (platform_order c pubs)) eqn:Em; [reflexivity|].
      unfold kept in Hkept. rewrite (not_seen_platform _ _ _ _ Em) in Hkept.
      destruct Hkept. }
    assert (Htop : top4 (kept c p pubs) <> []).
    { unfold top4. intros Hnil.
      pose proof (Permutation_length
                    (sorted_desc_perm _ Publications.engagement_score (kept c p pubs))) as Hl.
      destruct (Publications.sorted_desc Publications.engagement_score (kept c p pubs));
        [|discriminate].
      destruct (kept c p pubs); [destruct Hkept | discriminate]. }
    intros Hnil. apply Htop.
    destruct (top4 (kept c p pubs)) as [|y l] eqn:Ey; [reflexivity|].
    assert (Hy : In y (flat_map (fun q => top4 (kept c q pubs)) (platform_order c pubs))).
    { apply in_flat_map. exists p. split; [exact Hp|]. rewrite Ey. now left. }
    rewrite Hnil in Hy. destruct Hy.
Qed.

Lemma filter_publications_platform_filter_witness :
  exists g x,
    In g (Publications.filter_publications five_instagram) /\
    In x (Publications.publications g) /\
    (contains (u "instagram") (lower (Publications.SOCIAL_NETWORK x)) = true \/
     contains (u "facebook") (lower (Publications.SOCIAL_NETWORK x)) = true) /\
    Publications.publications g <> [] /\
    map Publications.campus_id (Publications.filter_publications five_instagram)
    = [u "GDL"].
Proof.
  pose (g := hd {| Publications.campus_id := []; Publications.publications := [] |}
                (Publications.filter_publications five_instagram)).
  pose (x := hd {| Publications.PUBLISHEDTIME := JNull;
                   Publications.SOCIAL_NETWORK := [];
                   Publications.INTERACCIONES_GENERAL__SUM := 0;
                   Publications.ACCOUNT := [];
                   Publications.ALCANCE_GENERAL__SUM := 0;
                   Publications.OUTBOUND_POST := JNull;
                   Publications.engagement_score := 0 |}
                (Publications.publications g)).
  assert (Hg : In g (Publications.filter_publications five_instagram))
    by (vm_compute; left; reflexivity).
  assert (Hx : In x (Publications.publications g))
    by (vm_compute; left; reflexivity).
  destruct (filter_publications_platform_filter Latin1 five_instagram)
    as [Hnet [_ [_ Hne]]].
  exists g, x. split; [exact Hg|]. split; [exact Hx|].
  split; [exact (Hnet g x Hg Hx)|]. split; [exact (Hne g Hg) | reflexivity].
Defined.

(* ================================================================== *)
(** * Further properties of the scripts *)

(* ------------------------------------------------------------------ *)
(** ** The metrics merge: which previous record is used *)

Section MergeLookup.
Context `{PyText}.
Import Metrics.

Definition has_region (k : str) (p : metrics_row) : bool :=
  match REGION p with Some r => str_eqb r k | None => false end.

(** The last previous-period record whose REGION is the text [k]. *)
Definition last_previous (k : str) (previous_data : list metrics_row)
    : option metrics_row :=
  find (has_region k) (rev previous_data).

Lemma find_app_or {A} (f : A -> bool) (a b : list A) :
  find f (a ++ b) = match find f a with Some x => Some x | None => find f b end.
Proof.
  induction a as [|x a IH]; [reflexivity|]. simpl. now destruct (f x).
Qed.

Lemma build_previous_lookup_last (previous_data : list metrics_row) :
  forall acc lk,
    build_previous_lookup previous_data acc = Ok lk ->
    forall k, sget lk k = match last_previous k previous_data with
                          | Some p => Some p
                          | None => sget acc k
                          end.
Proof.
  induction previous_data as [|item rest IH]; intros acc lk Hlk k.
  - simpl in Hlk. now injection Hlk as <-.
  - simpl in Hlk. destruct (REGION item) as [r|] eqn:Er; [|discriminate].
    rewrite (IH _ _ Hlk k). unfold last_previous. simpl rev.
    rewrite find_app_or. destruct (find (has_region k) (rev rest)); [reflexivity|].
    simpl. unfold has_region at 1. rewrite Er, sget_sset.
    now destruct (str_eqb r k).
Qed.

Lemma combine_previous (lk : sdict metrics_row) (row : metrics_row) :
  previous_year_month (combine lk row)
  = match sget lk (region_str row) with
    | Some p => metrics_of p
    | None => zero_metrics
    end.
Proof.
  unfold combine. now destruct (extract_campus_from_region (region_str row)).
Qed.

End MergeLookup.

(** X1: when several previous-period records carry the same REGION text, the
    last one wins: each current record gets the counters of the last
    previous record whose REGION equals its raw text, and zeros when there
    is none. *)
Theorem process_metrics_last_previous_wins :
  forall (rt : PyText) (current_data previous_data : list Metrics.metrics_row),
    Forall (fun p => Metrics.REGION p <> None) previous_data ->
    exists out,
      Metrics.process_metrics current_data previous_data = Ok out /\
      Forall2 (fun row e =>
                 Metrics.previous_year_month e
                 = match last_previous (Metrics.region_str row) previous_data with
                   | Some p => Metrics.metrics_of p
                   | None => Metrics.zero_metrics
                   end)
              current_data (Metrics.regions out).
Proof.
  intros rt cur prev Hprev. unfold Metrics.process_metrics.
  destruct (build_previous_lookup_ok prev Hprev []) as [lk [Hlk _]].
  rewrite Hlk. eexists. split; [reflexivity|]. cbn [Metrics.regions].
  apply Forall2_map_same. intros row _.
  rewrite combine_previous, (build_previous_lookup_last prev [] lk Hlk).
  now destruct (last_previous (Metrics.region_str row) prev).
Qed.

Lemma process_metrics_last_previous_wins_witness :
  let previous :=
    [ row_of (Some (u "Monterrey")) 200; row_of (Some (u "Puebla")) 7;
      row_of (Some (u "Monterrey")) 999 ] in
  Forall (fun p => Metrics.REGION p <> None) previous /\
  exists out,
    Metrics.process_metrics [row_of (Some (u "Monterrey")) 300] previous = Ok out /\
    map Metrics.previous_year_month (Metrics.regions out)
    = [Metrics.metrics_of (row_of (Some (u "Monterrey")) 999)].
Proof.
  intros previous.
  assert (Hprev : Forall (fun p => Metrics.REGION p <> None) previous)
    by (repeat constructor; discriminate).
  split; [exact Hprev|].
  destruct (process_metrics_last_previous_wins Latin1
              [row_of (Some (u "Monterrey")) 300] previous Hprev) as [out [Hout HF]].
  exists out. split; [exact Hout|].
  inversion HF as [|row e rows es He Hrest]; subst.
  inversion Hrest; subst. cbn [map]. now rewrite He.
Defined.

(* ------------------------------------------------------------------ *)
(** ** Campus resolution: known codes *)

Section ResolverCodes.
Context `{PyText}.
Import Metrics.

Lemma get_default_In (d : sdict str) (k : str) :
  In k (Dict.keys d) -> In (k, Dict.get_default str_eqb d k k) d.
Proof.
  unfold Dict.get_default, Dict.keys.
  induction d as [|[k0 v0] d IH]; simpl; [tauto|].
  intros Hin. destruct (str_eqb k0 k) eqn:E.
  - apply str_eqb_eq in E. subst. now left.
  - right. apply IH. destruct Hin as [Hk|Hin]; [|exact Hin].
    apply str_eqb_neq in E. congruence.
Qed.

Lemma CAMPUS_MAPPING_lookup (code name : str) :
  In (code, name) CAMPUS_MAPPING ->
  Dict.get_default str_eqb CAMPUS_MAPPING code code = name.
Proof.
  intros Hin.
  assert (Hall : forallb (fun kv =>
            str_eqb (Dict.get_default str_eqb CAMPUS_MAPPING (fst kv) (fst kv)) (snd kv))
            CAMPUS_MAPPING = true) by reflexivity.
  rewrite forallb_forall in Hall. specialize (Hall _ Hin).
  now apply str_eqb_eq in Hall.
Qed.

Lemma startswith_app (a b : str) : startswith (a ++ b) a = true.
Proof.
  induction a as [|c a IH]; [now destruct b|]. simpl. now rewrite N.eqb_refl, IH.
Qed.

Lemma contains_prefix (a b : str) : contains a (a ++ b) = true.
Proof.
  assert (Hunfold : forall n h, startswith h n = true -> contains n h = true).
  { intros n h Hs. destruct h; cbn [contains]; now rewrite Hs. }
  apply Hunfold, startswith_app.
Qed.

End ResolverCodes.

(** X2: a parenthesized token that uppercases to one of the 20 codes
    resolves to that code and its table name, whatever its case and whatever
    the rest of the text holds, provided no parenthesized token precedes
    it. *)
Theorem extract_campus_parenthesized_code :
  forall (rt : PyText) (pre tok rest code name : str),
    In (code, name) Metrics.CAMPUS_MAPPING ->
    upper tok = code ->
    Metrics.re_search_paren pre = None ->
    tok <> [] -> forallb isword tok = true ->
    Metrics.extract_campus_from_region (pre ++ u "(" ++ tok ++ u ")" ++ rest)
    = (code, name).
Proof.
  intros rt pre tok rest code name Hin Hup Hpre Hne Hw.
  change (u "(") with [40%N]. change (u ")") with [41%N].
  change ([40%N] ++ tok ++ [41%N] ++ rest) with (40%N :: tok ++ 41%N :: rest).
  unfold Metrics.extract_campus_from_region.
  rewrite (re_search_paren_first pre tok rest Hpre Hne Hw), Hup.
  now rewrite (CAMPUS_MAPPING_lookup code name Hin).
Qed.

Lemma extract_campus_parenthesized_code_witness :
  In (u "MTY", u "Monterrey") Metrics.CAMPUS_MAPPING /\
  upper (u "mty") = u "MTY" /\
  Metrics.re_search_paren (u "Campus Monterrey ") = None /\
  u "mty" <> [] /\ forallb isword (u "mty") = true /\
  Metrics.extract_campus_from_region (u "Campus Monterrey (mty) - Puebla (PUE)")
  = (u "MTY", u "Monterrey").
Proof.
  assert (H1 : In (u "MTY", u "Monterrey") Metrics.CAMPUS_MAPPING)
    by (vm_compute; tauto).
  assert (H2 : upper (u "mty") = u "MTY") by reflexivity.
  assert (H3 : Metrics.re_search_paren (u "Campus Monterrey ") = None) by reflexivity.
  assert (H4 : u "mty" <> []) by (vm_compute; discriminate).
  assert (H5 : forallb isword (u "mty") = true) by reflexivity.
  repeat (split; [assumption|]).
  exact (extract_campus_parenthesized_code Latin1 (u "Campus Monterrey ") (u "mty")
           (u " - Puebla (PUE)") (u "MTY") (u "Monterrey") H1 H2 H3 H4 H5).
Defined.

(** X3: the resolver never pairs one of the 20 codes with a foreign name.
    Whenever the code it returns is a key of the table, the name it returns
    is the table's name for that code; in particular the three-letter
    fallback never yields a known code. This holds for a runtime whose
    [upper] works character by character. *)
Theorem extract_campus_known_code_has_table_name :
  forall (rt : PyText),
    (forall a b : str, upper (a ++ b) = upper a ++ upper b) ->
    forall region code name : str,
      Metrics.extract_campus_from_region region = (code, name) ->
      In code (Dict.keys Metrics.CAMPUS_MAPPING) ->
      In (code, name) Metrics.CAMPUS_MAPPING.
Proof.
  intros rt Hupper region code name Hres Hkey.
  unfold Metrics.extract_campus_from_region in Hres.
  destruct (Metrics.re_search_paren region) as [tok|].
  { injection Hres as <- <-. now apply get_default_In. }
  destruct (find _ Metrics.CAMPUS_MAPPING) as [[c n]|] eqn:Hcode.
  { injection Hres as <- <-. now apply find_some in Hcode as [Hin _]. }
  destruct (find (fun kv => contains (lower (snd kv)) (lower region))
                 Metrics.CAMPUS_MAPPING) as [[c n]|] eqn:Hname.
  { injection Hres as <- <-. now apply find_some in Hname as [Hin _]. }
  exfalso. destruct (3 <=? length region); injection Hres as Hc _.
  - unfold Dict.keys in Hkey. apply in_map_iff in Hkey as [[c n] [Hfst Hin]].
    cbn [fst] in Hfst. subst c.
    pose proof (find_none _ _ Hcode _ Hin) as Hno. cbn [fst] in Hno.
    change (upper (firstn 3 region) = code) in Hc.
    rewrite <- (firstn_skipn 3 region), Hupper, Hc, contains_prefix in Hno.
    discriminate.
  - subst code. apply mem_In in Hkey. discriminate Hkey.
Qed.

Lemma latin1_upper_app (a b : str) :
  @upper Latin1 (a ++ b) = @upper Latin1 a ++ @upper Latin1 b.
Proof. apply flat_map_app. Qed.

Lemma extract_campus_known_code_has_table_name_witness :
  Metrics.extract_campus_from_region (u "Casino Royale") = (u "SIN", u "Sinaloa") /\
  In (u "SIN") (Dict.keys Metrics.CAMPUS_MAPPING) /\
  In (u "SIN", u "Sinaloa") Metrics.CAMPUS_MAPPING.
Proof.
  assert (H1 : Metrics.extract_campus_from_region (u "Casino Royale")
               = (u "SIN", u "Sinaloa")) by reflexivity.
  assert (H2 : In (u "SIN") (Dict.keys Metrics.CAMPUS_MAPPING))
    by (vm_compute; tauto).
  split; [exact H1|]. split; [exact H2|].
  exact (extract_campus_known_code_has_table_name Latin1 latin1_upper_app
           (u "Casino Royale") (u "SIN") (u "Sinaloa") H1 H2).
Defined.

(* ------------------------------------------------------------------ *)
(** ** The two resolvers on the display names of the tables *)

Section ResolverAgreement.

Definition forall_entries (P : str -> str -> bool) (d : sdict str) : bool :=
  forallb (fun kv => P (fst kv) (snd kv)) d.

Lemma forall_entries_In (P : str -> str -> bool) (d : sdict str) (a b : str) :
  forall_entries P d = true -> In (a, b) d -> P a b = true.
Proof.
  unfold forall_entries. rewrite forallb_forall. intros Hall Hin.
  exact (Hall (a, b) Hin).
Qed.

End ResolverAgreement.

(** X4: with CPython's case mapping, the name resolver of the scores script
    sends every display name of its table, also uppercased, to its code; the
    resolver of the metrics script agrees with it on every display name of
    the schema table except Ciudad Juárez and Ciudad Obregón, which it both
    sends to the fallback code CIU; and the scores resolver sends the
    metrics names Cd. Juárez and Cd. Obregón to the fallback code CD. *)
Theorem resolvers_on_table_names :
  (forall name code, In (name, code) Sdm.CAMPUS_MAPPING ->
     Sdm.map_campus_name_to_id name = code /\
     Sdm.map_campus_name_to_id (upper name) = code) /\
  (forall code name, In (code, name) Schemas.CAMPUS_MAPPING ->
     code <> u "CDJ" -> code <> u "COB" ->
     fst (Metrics.extract_campus_from_region name) = code /\
     Sdm.map_campus_name_to_id name = code) /\
  Metrics.extract_campus_from_region (u "Ciudad Juárez") = (u "CIU", u "Ciudad Juárez") /\
  Metrics.extract_campus_from_region (u "Ciudad Obregón") = (u "CIU", u "Ciudad Obregón") /\
  Sdm.map_campus_name_to_id (u "Cd. Juárez") = u "CD." /\
  Sdm.map_campus_name_to_id (u "Cd. Obregón") = u "CD.".
Proof.
  split; [|split; [|repeat split; reflexivity]].
  - intros name code Hin.
    assert (Hall : forall_entries (fun name code =>
              str_eqb (Sdm.map_campus_name_to_id name) code
              && str_eqb (Sdm.map_campus_name_to_id (upper name)) code)
              Sdm.CAMPUS_MAPPING = true) by (vm_compute; reflexivity).
    apply (forall_entries_In _ _ _ _ Hall), andb_prop in Hin as [H1 H2].
    split; now apply str_eqb_eq.
  - intros code name Hin H1 H2.
    assert (Hall : forall_entries (fun code name =>
              str_eqb code (u "CDJ") || str_eqb code (u "COB")
              || (str_eqb (fst (Metrics.extract_campus_from_region name)) code
                  && str_eqb (Sdm.map_campus_name_to_id name) code))
              Schemas.CAMPUS_MAPPING = true) by (vm_compute; reflexivity).
    apply (forall_entries_In _ _ _ _ Hall) in Hin.
    apply str_eqb_neq in H1, H2. rewrite H1, H2 in Hin. cbn [orb] in Hin.
    apply andb_prop in Hin as [Ha Hb]. split; now apply str_eqb_eq.
Qed.

Lemma resolvers_on_table_names_witness :
  In (u "León", u "LEO") Sdm.CAMPUS_MAPPING /\
  In (u "LEO", u "León") Schemas.CAMPUS_MAPPING /\
  Sdm.map_campus_name_to_id (u "LEÓN") = u "LEO" /\
  fst (Metrics.extract_campus_from_region (u "León")) = u "LEO".
Proof.
  assert (H1 : In (u "León", u "LEO") Sdm.CAMPUS_MAPPING) by (vm_compute; tauto).
  assert (H2 : In (u "LEO", u "León") Schemas.CAMPUS_MAPPING) by (vm_compute; tauto).
  assert (H3 : u "LEO" <> u "CDJ") by (vm_compute; discriminate).
  assert (H4 : u "LEO" <> u "COB") by (vm_compute; discriminate).
  destruct resolvers_on_table_names as [Hsdm [Hschema _]].
  split; [exact H1|]. split; [exact H2|].
  split; [exact (proj2 (Hsdm _ _ H1)) | exact (proj1 (Hschema _ _ H2 H3 H4))].
Defined.

(* ------------------------------------------------------------------ *)
(** ** The publications pipeline: groups and their records *)

Section SelectorMore.
Context `{PyText}.
Import Publications.

(** The campus a raw record is filed under, if it is kept. *)
Definition kept_campus (pub : raw_pub) : option str :=
  match classify pub with
  | Some (c, _, _) => Some c
  | None => None
  end.

Definition kept_under (c : str) (pub : raw_pub) : bool :=
  match kept_campus pub with
  | Some c' => str_eqb c' c
  | None => false
  end.

Lemma In_kept_classify (c p : str) (pubs : list raw_pub) (x : filtered_pub) :
  In x (kept c p pubs) ->
  exists pub, In pub pubs /\ classify pub = Some (c, p, x).
Proof.
  unfold kept, posts_of. rewrite in_map_iff. intros [[[c' p'] x'] [Hx He]].
  cbn [ev_post snd] in Hx. subst x'.
  apply filter_In in He as [He Hcp]. unfold of_campus_platform in Hcp.
  cbn [ev_campus ev_platform fst snd] in Hcp.
  apply andb_prop in Hcp as [Hc Hp].
  apply str_eqb_eq in Hc. apply str_eqb_eq in Hp. subst.
  now apply In_events in He.
Qed.

Lemma StronglySorted_app_le {A} (R : A -> A -> Prop) (a b : list A) :
  StronglySorted R (a ++ b) -> forall x y, In x a -> In y b -> R x y.
Proof.
  induction a as [|z a IH]; intros Hs x y Hx Hy; [destruct Hx|].
  apply StronglySorted_inv in Hs as [Hs Hz].
  destruct Hx as [->|Hx].
  - rewrite Forall_forall in Hz. apply Hz, in_or_app. now right.
  - now apply IH.
Qed.

Lemma events_filter_kept_under (c : str) (pubs : list raw_pub) :
  events (filter (kept_under c) pubs) = filter (of_campus c) (events pubs).
Proof.
  induction pubs as [|pub pubs IH]; [reflexivity|].
  change (events (pub :: pubs))
    with (match classify pub with Some e => [e] | None => [] end ++ events pubs).
  unfold event in *. rewrite filter_app, <- IH. cbn [filter].
  unfold kept_under, kept_campus.
  destruct (classify pub) as [[[c' p] x]|] eqn:Hc; [|reflexivity].
  cbn [filter]. unfold of_campus. cbn [ev_campus fst].
  destruct (str_eqb c' c); [|reflexivity].
  unfold events. cbn [flat_map]. now rewrite Hc.
Qed.

Lemma filter_filter_same {A} (f g : A -> bool) (l : list A) :
  (forall x, g x = true -> f x = true) ->
  filter g (filter f l) = filter g l.
Proof.
  intros Hfg. induction l as [|x l IH]; [reflexivity|]. cbn [filter].
  destruct (f x) eqn:Ef; cbn [filter]; rewrite IH; [reflexivity|].
  destruct (g x) eqn:Eg; [|reflexivity]. rewrite (Hfg x Eg) in Ef. discriminate.
Qed.

Lemma seen_constant (c : str) (l : list str) :
  l <> [] -> (forall x, In x l -> x = c) -> seen l = [c].
Proof.
  intros Hne Hall.
  assert (Hs : forall x, In x (seen l) -> x = c)
    by (intros x Hx; apply Hall; now apply In_seen).
  pose proof (NoDup_seen l) as Hnd.
  assert (Hin : In c (seen l)).
  { apply In_seen. destruct l as [|x l]; [congruence|].
    rewrite <- (Hall x (or_introl eq_refl)). now left. }
  destruct (seen l) as [|a [|b s]]; [destruct Hin| |].
  - now rewrite (Hs a (or_introl eq_refl)).
  - exfalso. inversion Hnd as [|? ? Hnot _]; subst. apply Hnot.
    rewrite (Hs a (or_introl eq_refl)), (Hs b (or_intror (or_introl eq_refl))).
    now left.
Qed.

End SelectorMore.

(** X5: the output has exactly one group per campus code: the campus ids of
    the groups are pairwise distinct, and the first group is that of the
    first kept record. *)
Theorem filter_publications_one_group_per_campus :
  forall (rt : PyText) (pubs : list Publications.raw_pub),
    NoDup (map Publications.campus_id (Publications.filter_publications pubs)) /\
    hd_error (map Publications.campus_id (Publications.filter_publications pubs))
    = hd_error (map ev_campus (events pubs)).
Proof.
  intros rt pubs.
  rewrite filter_publications_spec, map_map. cbn [Publications.campus_id].
  rewrite map_id. split; [apply NoDup_seen | apply seen_head].
Qed.

(** X6: every emitted record is the trimmed copy of a raw record kept for
    the group's campus: its own ACCOUNT matches the campus pattern with a
    token that uppercases to the group's campus id, and its engagement score
    is ten times its interactions plus its reach. *)
Theorem filter_publications_record_provenance :
  forall (rt : PyText) (pubs : list Publications.raw_pub)
         (g : Publications.campus_group) (x : Publications.filtered_pub),
    In g (Publications.filter_publications pubs) ->
    In x (Publications.publications g) ->
    (exists pub p,
        In pub pubs /\
        Publications.classify pub = Some (Publications.campus_id g, p, x)) /\
    (exists tok,
        Publications.re_search_campus (Publications.ACCOUNT x) = Some tok /\
        upper tok = Publications.campus_id g) /\
    Publications.engagement_score x
    = (Publications.INTERACCIONES_GENERAL__SUM x * 10
       + Publications.ALCANCE_GENERAL__SUM x)%Z.
Proof.
  intros rt pubs g x Hg Hx.
  rewrite filter_publications_spec in Hg. apply in_map_iff in Hg as [c [<- _]].
  cbn [Publications.publications Publications.campus_id] in *.
  apply in_flat_map in Hx as [p [_ Hx]].
  apply In_firstn_sorted_desc, In_kept_classify in Hx as [pub [Hin Hc]].
  split; [now exists pub, p|].
  unfold Publications.classify in Hc.
  destruct (Publications.re_search_campus _) as [tok|] eqn:Htok; [|discriminate].
  destruct (Publications.platform_of _); [|discriminate].
  injection Hc as Hcid _ <-. cbn. split; [|reflexivity].
  now exists tok.
Qed.

(** X7: a platform's block in a group has min(4, n) records, where n is the
    number of records kept for the campus on that platform: nothing is
    dropped below the quota. *)
Theorem filter_publications_block_length :
  forall (rt : PyText) (pubs : list Publications.raw_pub) (g : Publications.campus_group),
    In g (Publications.filter_publications pubs) ->
    (forall p,
        length (filter (is_platform p) (Publications.publications g))
        = Nat.min 4 (length (kept (Publications.campus_id g) p pubs))) /\
    length (Publications.publications g)
    = Nat.min 4 (length (kept (Publications.campus_id g) (u "instagram") pubs))
      + Nat.min 4 (length (kept (Publications.campus_id g) (u "facebook") pubs)).
Proof.
  intros rt pubs g Hg.
  rewrite filter_publications_spec in Hg. apply in_map_iff in Hg as [c [<- _]].
  cbn [Publications.publications Publications.campus_id].
  assert (Hblock : forall p,
             length (filter (is_platform p)
                       (flat_map (fun q => top4 (kept c q pubs)) (platform_order c pubs)))
             = Nat.min 4 (length (kept c p pubs))).
  { intros p. rewrite filter_platform_publications. unfold top4.
    rewrite length_firstn.
    now rewrite (Permutation_length
                   (sorted_desc_perm _ Publications.engagement_score (kept c p pubs))). }
  split; [exact Hblock|].
  rewrite length_two_platforms.
  - now rewrite !Hblock.
  - intros x Hx. apply in_flat_map in Hx as [q [Hq Hx]].
    apply In_firstn_sorted_desc, In_kept in Hx. unfold is_platform. rewrite Hx.
    destruct (In_platform_order c q pubs Hq) as [-> | ->]; reflexivity.
Qed.

(** X8: the records dropped by the quota never outrank the emitted ones: the
    kept records of a campus on a platform split into the emitted block and
    a remainder whose scores are at most every emitted score. *)
Theorem filter_publications_keeps_the_top :
  forall (rt : PyText) (pubs : list Publications.raw_pub)
         (g : Publications.campus_group) (p : str),
    In g (Publications.filter_publications pubs) ->
    exists dropped,
      Permutation (kept (Publications.campus_id g) p pubs)
                  (filter (is_platform p) (Publications.publications g) ++ dropped) /\
      forall x y,
        In x (filter (is_platform p) (Publications.publications g)) ->
        In y dropped ->
        (Publications.engagement_score y <= Publications.engagement_score x)%Z.
Proof.
  intros rt pubs g p Hg.
  rewrite filter_publications_spec in Hg. apply in_map_iff in Hg as [c [<- _]].
  cbn [Publications.publications Publications.campus_id].
  rewrite filter_platform_publications. unfold top4.
  exists (skipn 4 (Publications.sorted_desc Publications.engagement_score (kept c p pubs))).
  rewrite firstn_skipn. split.
  - symmetry. apply sorted_desc_perm.
  - apply (StronglySorted_app_le (desc Publications.engagement_score)).
    rewrite firstn_skipn. apply sorted_desc_sorted.
Qed.

(** X9: groups are independent of one another: running the pipeline on the
    raw records kept for one campus alone gives exactly that campus's group
    of the full run. *)
Theorem filter_publications_campus_independent :
  forall (rt : PyText) (pubs : list Publications.raw_pub) (g : Publications.campus_group),
    In g (Publications.filter_publications pubs) ->
    Publications.filter_publications (filter (kept_under (Publications.campus_id g)) pubs)
    = [g].
Proof.
  intros rt pubs g Hg.
  rewrite filter_publications_spec in Hg. apply in_map_iff in Hg as [c [<- Hc]].
  cbn [Publications.campus_id].
  rewrite filter_publications_spec.
  unfold campus_order, platform_order, kept, platforms_seen, posts_of.
  rewrite events_filter_kept_under.
  unfold campus_order, campuses_seen in Hc.
  rewrite In_seen, in_map_iff in Hc. destruct Hc as [e [Hec He]].
  assert (Hsel : In e (filter (of_campus c) (events pubs))).
  { apply filter_In. split; [exact He|]. unfold of_campus. rewrite Hec.
    apply str_eqb_refl. }
  unfold campuses_seen. rewrite (seen_constant c).
  - cbn [map]. rewrite (filter_filter_same (of_campus c) (of_campus c)) by trivial.
    do 2 f_equal. apply flat_map_ext. intros p.
    rewrite (filter_filter_same (of_campus c) (of_campus_platform c p)); [reflexivity|].
    intros x Hx. unfold of_campus_platform in Hx. now apply andb_prop in Hx as [Hx _].
  - intros Hnil. apply map_eq_nil in Hnil. rewrite Hnil in Hsel. destruct Hsel.
  - intros k Hk. apply in_map_iff in Hk as [e' [<- He']].
    apply filter_In in He' as [_ Hoc]. now apply str_eqb_eq in Hoc.
Qed.

Section SelectorMoreExamples.
Import Publications.

Definition two_campuses : list raw_pub :=
  [ post_of "Tec Campus GDL [IG]" "Instagram" 0 10;
    post_of "Tec campus mty [FB]" "Facebook" 1 5;
    post_of "Tec Campus GDL [FB]" "Facebook" 2 0;
    post_of "Tec Campus MTY [IG]" "Instagram" 3 3 ].

(** The first group of a run with CPython's tables. *)
Definition first_group (pubs : list raw_pub) : campus_group :=
  hd {| campus_id := []; publications := [] |} (filter_publications pubs).

Definition first_record (g : campus_group) : filtered_pub :=
  hd {| PUBLISHEDTIME := JNull; SOCIAL_NETWORK := [];
        INTERACCIONES_GENERAL__SUM := 0; ACCOUNT := [];
        ALCANCE_GENERAL__SUM := 0; OUTBOUND_POST := JNull;
        engagement_score := 0 |} (publications g).

End SelectorMoreExamples.

Lemma filter_publications_record_provenance_witness :
  In (first_group two_campuses) (Publications.filter_publications two_campuses) /\
  In (first_record (first_group two_campuses))
     (Publications.publications (first_group two_campuses)) /\
  (exists tok,
      Publications.re_search_campus
        (Publications.ACCOUNT (first_record (first_group two_campuses))) = Some tok /\
      upper tok = u "GDL") /\
  Publications.engagement_score (first_record (first_group two_campuses)) = 10%Z.
Proof.
  assert (Hg : In (first_group two_campuses)
                  (Publications.filter_publications two_campuses))
    by (vm_compute; left; reflexivity).
  assert (Hx : In (first_record (first_group two_campuses))
                  (Publications.publications (first_group two_campuses)))
    by (vm_compute; left; reflexivity).
  split; [exact Hg|]. split; [exact Hx|].
  destruct (filter_publications_record_provenance Latin1 two_campuses _ _ Hg Hx)
    as [_ [Htok Hscore]].
  split; [exact Htok|]. rewrite Hscore. reflexivity.
Defined.

Lemma filter_publications_block_length_witness :
  In (first_group five_instagram) (Publications.filter_publications five_instagram) /\
  length (kept (u "GDL") (u "instagram") five_instagram) = 5 /\
  length (filter (is_platform (u "instagram"))
                 (Publications.publications (first_group five_instagram))) = 4 /\
  length (Publications.publications (first_group five_instagram)) = 4.
Proof.
  assert (Hg : In (first_group five_instagram)
                  (Publications.filter_publications five_instagram))
    by (vm_compute; left; reflexivity).
  split; [exact Hg|]. split; [reflexivity|].
  destruct (filter_publications_block_length Latin1 five_instagram _ Hg)
    as [Hblock Htotal].
  split; [rewrite Hblock | rewrite Htotal]; reflexivity.
Defined.

Lemma filter_publications_keeps_the_top_witness :
  In (first_group five_instagram) (Publications.filter_publications five_instagram) /\
  exists dropped,
    Permutation (kept (u "GDL") (u "instagram") five_instagram)
                (filter (is_platform (u "instagram"))
                        (Publications.publications (first_group five_instagram))
                 ++ dropped) /\
    forall x y,
      In x (filter (is_platform (u "instagram"))
                   (Publications.publications (first_group five_instagram))) ->
      In y dropped ->
      (Publications.engagement_score y <= Publications.engagement_score x)%Z.
Proof.
  assert (Hg : In (first_group five_instagram)
                  (Publications.filter_publications five_instagram))
    by (vm_compute; left; reflexivity).
  split; [exact Hg|].
  exact (filter_publications_keeps_the_top Latin1 five_instagram _ (u "instagram") Hg).
Defined.

Lemma filter_publications_campus_independent_witness :
  In (first_group two_campuses) (Publications.filter_publications two_campuses) /\
  length (Publications.filter_publications two_campuses) = 2 /\
  length (filter (kept_under (u "GDL")) two_campuses) = 2 /\
  Publications.filter_publications (filter (kept_under (u "GDL")) two_campuses)
  = [first_group two_campuses].
Proof.
  assert (Hg : In (first_group two_campuses)
                  (Publications.filter_publications two_campuses))
    by (vm_compute; left; reflexivity).
  split; [exact Hg|]. split; [reflexivity|]. split; [reflexivity|].
  exact (filter_publications_campus_independent Latin1 two_campuses _ Hg).
Defined.

(* ------------------------------------------------------------------ *)
(** ** The score table parser: blocks *)

Section ParserBlocks.
Context `{PyText}.
Import Sdm.

(** A state with the campuses [done] flushed before its own. *)
Definition prepend (done : list campus_scores) (st : parser_state) : parser_state :=
  {| campuses := done ++ campuses st;
     current_campus := current_campus st;
     current_platform := current_platform st |}.

Lemma out_campuses_pending (rows : list (list str)) :
  out_campuses (parse_campus_scores_csv rows)
  = pending (fold_left step rows initial_state).
Proof.
  unfold parse_campus_scores_csv, pending. cbn [out_campuses].
  destruct (current_campus _); [reflexivity | now rewrite app_nil_r].
Qed.

Lemma pending_prepend (done : list campus_scores) (st : parser_state) :
  pending (prepend done st) = done ++ pending st.
Proof. unfold pending, prepend. cbn. now rewrite app_assoc. Qed.

Lemma step_prepend (done : list campus_scores) (st : parser_state) (row : list str) :
  step (prepend done st) row = prepend done (step st row).
Proof.
  destruct row as [|col0 [|col1 row]]; try reflexivity.
  unfold step.
  destruct (str_eqb (lower (strip col0)) (u "campus")).
  - unfold prepend. cbn [campuses current_campus current_platform].
    destruct (current_campus st); [now rewrite app_assoc | reflexivity].
  - match goal with |- context [if ?b then _ else _] => destruct b end;
      [reflexivity|].
    match goal with |- context [if ?b then _ else _] => destruct b end;
      [|reflexivity].
    cbn [prepend current_campus current_platform campuses].
    destruct (current_platform st) as [platform|]; [|reflexivity].
    destruct (current_campus st) as [c|]; [|reflexivity].
    now destruct (truthy platform).
Qed.

Lemma fold_step_prepend (rows : list (list str)) (done : list campus_scores)
    (st : parser_state) :
  fold_left step rows (prepend done st) = prepend done (fold_left step rows st).
Proof.
  revert st. induction rows as [|row rows IH]; intros st; [reflexivity|].
  cbn [fold_left]. now rewrite step_prepend, IH.
Qed.

Lemma step_campus_row_flush (st : parser_state) (row : list str) :
  is_campus_row row = true ->
  step st row = prepend (pending st) (step initial_state row).
Proof.
  destruct row as [|col0 [|col1 row]]; try discriminate.
  unfold is_campus_row, step. intros ->. unfold prepend, pending.
  cbn [campuses current_campus current_platform initial_state].
  rewrite app_nil_r. destruct (current_campus st); [reflexivity|].
  now rewrite app_nil_r.
Qed.

End ParserBlocks.

(** X10: the parser works block by block: cutting the rows in front of a
    campus row and parsing the two parts separately gives, concatenated, the
    campuses of the whole input. Nothing after a campus row changes a campus
    that came before it. *)
Theorem parse_campus_scores_csv_splits_at_campus_row :
  forall (rt : PyText) (rows1 : list (list str)) (row : list str)
         (rows2 : list (list str)),
    is_campus_row row = true ->
    Sdm.out_campuses (Sdm.parse_campus_scores_csv (rows1 ++ row :: rows2))
    = Sdm.out_campuses (Sdm.parse_campus_scores_csv rows1)
      ++ Sdm.out_campuses (Sdm.parse_campus_scores_csv (row :: rows2)).
Proof.
  intros rt rows1 row rows2 Hrow.
  rewrite !out_campuses_pending, fold_left_app. cbn [fold_left].
  rewrite (step_campus_row_flush _ row Hrow), fold_step_prepend.
  apply pending_prepend.
Qed.

Section ParserExamples.

(** Two campus blocks; the first score row of the second block comes before
    any platform row. *)
Definition block_monterrey : list (list str) :=
  [ [u "Campus"; u " Monterrey "];
    [u "Facebook"; u "Calificaciones"];
    [u "Visibilidad"; u "82"];
    [u "Salud de Marca"; u "1,250"] ].

Definition block_puebla : list (list str) :=
  [ [u "CAMPUS"; u "Puebla"];
    [u "Resonancia"; u "140"];
    [u "Instagram"; u ""];
    [u "Resonancia"; u "141"] ].

End ParserExamples.

Lemma parse_campus_scores_csv_splits_at_campus_row_witness :
  is_campus_row [u "CAMPUS"; u "Puebla"] = true /\
  Sdm.out_campuses (Sdm.parse_campus_scores_csv (block_monterrey ++ block_puebla))
  = Sdm.out_campuses (Sdm.parse_campus_scores_csv block_monterrey)
    ++ Sdm.out_campuses (Sdm.parse_campus_scores_csv block_puebla) /\
  map Sdm.campus_id
      (Sdm.out_campuses (Sdm.parse_campus_scores_csv (block_monterrey ++ block_puebla)))
  = [u "MTY"; u "PUE"].
Proof.
  assert (Hrow : is_campus_row [u "CAMPUS"; u "Puebla"] = true) by reflexivity.
  split; [exact Hrow|]. split; [|reflexivity].
  exact (parse_campus_scores_csv_splits_at_campus_row Latin1 block_monterrey
           [u "CAMPUS"; u "Puebla"] (tl block_puebla) Hrow).
Defined.

(* ------------------------------------------------------------------ *)
(** ** The score table parser: what a score row stores *)

Section ParserScores.
Context `{PyText}.
Import Sdm.

Definition platform_names : list str :=
  map u ["facebook"; "twitter"; "instagram"; "totales"]%string.

Definition score_labels : list str :=
  map u ["visibilidad"; "resonancia"; "permanencia"; "sentimiento";
         "salud de marca"]%string.

(** Every key a score can be stored under: the normalized names, and the
    labels themselves. *)
Definition score_keys : list str :=
  map u ["visibilidad"; "resonancia"; "permanencia"; "sentimiento";
         "salud_de_marca"; "salud de marca"]%string.

Definition categoria (k : str) : str := k ++ u "_categoria".

(** [c[platform]] for a platform key. *)
Definition scores_of (c : campus_scores) (platform : str) : sdict json :=
  if str_eqb platform (u "facebook") then facebook c
  else if str_eqb platform (u "twitter") then twitter c
  else if str_eqb platform (u "instagram") then instagram c
  else if str_eqb platform (u "totales") then totales c
  else [].

(** A row the parser reads as a platform row, when it is not a campus row. *)
Definition is_platform_row (row : list str) : bool :=
  match row with
  | col0 :: _ :: _ =>
      str_in (lower (strip col0)) ["facebook"; "twitter"; "instagram"; "totales"]%string
  | _ => false
  end.

Definition no_scores (c : campus_scores) : Prop :=
  facebook c = [] /\ twitter c = [] /\ instagram c = [] /\ totales c = [].

(** In a score set, every score key that is present holds a score and is
    accompanied by the category of that score; a key that is absent has no
    category either. *)
Definition consistent (d : sdict json) : Prop :=
  forall k, In k score_keys ->
    match sget d k with
    | None => sget d (categoria k) = None
    | Some j => exists v, j = json_of_score v /\
                          sget d (categoria k)
                          = Some (json_of_category (categorize_score v))
    end.

Definition campus_consistent (c : campus_scores) : Prop :=
  consistent (facebook c) /\ consistent (twitter c) /\
  consistent (instagram c) /\ consistent (totales c).

Lemma str_in_In (x : str) (l : list string) :
  str_in x l = true -> In x (map u l).
Proof.
  unfold str_in. rewrite existsb_exists. intros [a [Ha E]].
  apply str_eqb_eq in E. subst x. now apply in_map.
Qed.

Lemma In_str_in (x : str) (l : list string) :
  In x (map u l) -> str_in x l = true.
Proof.
  unfold str_in. rewrite in_map_iff, existsb_exists. intros [a [<- Ha]].
  exists a. split; [exact Ha | apply str_eqb_refl].
Qed.

Lemma score_label_branch (l : str) :
  In l score_labels ->
  str_eqb l (u "campus") = false /\
  str_in l ["facebook"; "twitter"; "instagram"; "totales"]%string = false /\
  str_in l ["visibilidad"; "resonancia"; "permanencia"; "sentimiento";
            "salud de marca"]%string = true.
Proof.
  intros Hl. repeat (destruct Hl as [<-|Hl]; [repeat split; reflexivity|]).
  destruct Hl.
Qed.

Lemma platform_name_truthy (p : str) : In p platform_names -> truthy p = true.
Proof.
  intros Hp. repeat (destruct Hp as [<-|Hp]; [reflexivity|]). destruct Hp.
Qed.

Lemma get_In_values (d : sdict str) (k v : str) :
  Dict.get str_eqb d k = Some v -> In v (map snd d).
Proof.
  induction d as [|[k0 v0] d IH]; simpl; [discriminate|].
  destruct (str_eqb k0 k); [intros [= <-]; now left | right; now apply IH].
Qed.

Lemma normalize_score_name_key (l : str) :
  In l score_labels -> In (normalize_score_name l) score_keys.
Proof.
  intros Hl. unfold normalize_score_name, Dict.get_default.
  destruct (Dict.get str_eqb _ (lower l)) as [v|] eqn:Hget.
  - apply get_In_values in Hget. cbn [map snd] in Hget.
    repeat (destruct Hget as [<-|Hget]; [vm_compute; tauto|]). destruct Hget.
  - repeat (destruct Hl as [<-|Hl]; [vm_compute; tauto|]). destruct Hl.
Qed.

Lemma categoria_not_key (k k' : str) :
  In k score_keys -> In k' score_keys -> str_eqb (categoria k) k' = false.
Proof.
  intros Hk Hk'.
  assert (Hall : forallb (fun a => forallb (fun b => negb (str_eqb (categoria a) b))
                                           score_keys) score_keys = true)
    by reflexivity.
  rewrite forallb_forall in Hall. specialize (Hall k Hk).
  rewrite forallb_forall in Hall. specialize (Hall k' Hk').
  now apply negb_true_iff in Hall.
Qed.

Lemma categoria_not_self (k : str) : str_eqb (categoria k) k = false.
Proof.
  apply str_eqb_neq. unfold categoria. intros E.
  apply (f_equal (@length N)) in E. rewrite length_app in E.
  change (length (u "_categoria")) with 10 in E. lia.
Qed.

Lemma categoria_inj (k k' : str) : str_eqb (categoria k) (categoria k') = str_eqb k k'.
Proof.
  destruct (str_eqb k k') eqn:E.
  - apply str_eqb_eq in E. subst. apply str_eqb_refl.
  - apply str_eqb_neq in E. apply str_eqb_neq. unfold categoria. intros Hc.
    now apply app_inv_tail in Hc.
Qed.

Lemma consistent_nil : consistent [].
Proof. intros k _. reflexivity. Qed.

Lemma consistent_store (d : sdict json) (k : str) (v : option Z) :
  consistent d -> In k score_keys ->
  consistent (sset (sset d k (json_of_score v)) (categoria k)
                   (json_of_category (categorize_score v))).
Proof.
  intros Hd Hk k0 Hk0. rewrite !sget_sset.
  rewrite (categoria_not_key k k0 Hk Hk0), categoria_inj.
  rewrite (str_eqb_sym k (categoria k0)), (categoria_not_key k0 k Hk0 Hk).
  destruct (str_eqb k k0) eqn:E.
  - now exists v.
  - exact (Hd k0 Hk0).
Qed.

Lemma scores_of_setitem (c : campus_scores) (p k : str) (v : json) :
  In p platform_names ->
  scores_of (setitem c p k v) p = sset (scores_of c p) k v.
Proof.
  intros Hp. repeat (destruct Hp as [<-|Hp]; [reflexivity|]). destruct Hp.
Qed.

Lemma scores_of_setitem_other (c : campus_scores) (p q k : str) (v : json) :
  q <> p -> scores_of (setitem c p k v) q = scores_of c q.
Proof.
  intros Hne. unfold setitem, scores_of.
  destruct (str_eqb p (u "facebook")) eqn:E1;
    [|destruct (str_eqb p (u "twitter")) eqn:E2;
      [|destruct (str_eqb p (u "instagram")) eqn:E3;
        [|destruct (str_eqb p (u "totales")) eqn:E4]]];
    try reflexivity;
    destruct (str_eqb q (u "facebook")) eqn:F1;
    destruct (str_eqb q (u "twitter")) eqn:F2;
    destruct (str_eqb q (u "instagram")) eqn:F3;
    destruct (str_eqb q (u "totales")) eqn:F4;
    try reflexivity;
    repeat match goal with
           | E : str_eqb _ _ = true |- _ => apply str_eqb_eq in E
           end; congruence.
Qed.

Lemma campus_consistent_scores_of (c : campus_scores) :
  campus_consistent c <-> forall p, In p platform_names -> consistent (scores_of c p).
Proof.
  split.
  - intros [Hf [Ht [Hi Ho]]] p Hp.
    repeat (destruct Hp as [<-|Hp]; [assumption|]). destruct Hp.
  - intros Hall. repeat split.
    + apply (Hall (u "facebook")). vm_compute. tauto.
    + apply (Hall (u "twitter")). vm_compute. tauto.
    + apply (Hall (u "instagram")). vm_compute. tauto.
    + apply (Hall (u "totales")). vm_compute. tauto.
Qed.

Lemma setitem_not_platform (c : campus_scores) (p k : str) (v : json) :
  ~ In p platform_names -> setitem c p k v = c.
Proof.
  intros Hp. unfold setitem.
  destruct (str_eqb p (u "facebook")) eqn:E1;
    [apply str_eqb_eq in E1; exfalso; apply Hp; subst; vm_compute; tauto|].
  destruct (str_eqb p (u "twitter")) eqn:E2;
    [apply str_eqb_eq in E2; exfalso; apply Hp; subst; vm_compute; tauto|].
  destruct (str_eqb p (u "instagram")) eqn:E3;
    [apply str_eqb_eq in E3; exfalso; apply Hp; subst; vm_compute; tauto|].
  destruct (str_eqb p (u "totales")) eqn:E4;
    [apply str_eqb_eq in E4; exfalso; apply Hp; subst; vm_compute; tauto|].
  reflexivity.
Qed.

Lemma In_platform_names_dec (p : str) : In p platform_names \/ ~ In p platform_names.
Proof.
  destruct (mem p platform_names) eqn:E.
  - left. now apply mem_In.
  - right. intros Hin. apply mem_In in Hin. congruence.
Qed.

Lemma campus_consistent_store (c : campus_scores) (p k : str) (v : option Z) :
  campus_consistent c -> In k score_keys ->
  campus_consistent
    (setitem (setitem c p k (json_of_score v)) p (categoria k)
             (json_of_category (categorize_score v))).
Proof.
  intros Hc Hk.
  destruct (In_platform_names_dec p) as [Hp|Hp];
    [|now rewrite !setitem_not_platform].
  apply campus_consistent_scores_of. intros q Hq.
  rewrite campus_consistent_scores_of in Hc.
  destruct (str_eqb q p) eqn:E.
  - apply str_eqb_eq in E. subst q.
    rewrite !scores_of_setitem by assumption.
    apply consistent_store; [now apply Hc | exact Hk].
  - apply str_eqb_neq in E. rewrite !scores_of_setitem_other by assumption.
    now apply Hc.
Qed.

Lemma step_consistent (st : parser_state) (row : list str) :
  Forall campus_consistent (pending st) ->
  Forall campus_consistent (pending (step st row)).
Proof.
  intros Hst. destruct row as [|col0 [|col1 row]]; try exact Hst.
  unfold step.
  destruct (str_eqb (lower (strip col0)) (u "campus")).
  - unfold pending in *. cbn [campuses current_campus].
    apply Forall_app. split.
    + destruct (current_campus st); [exact Hst | now rewrite app_nil_r in Hst].
    + constructor; [|constructor]. repeat split; apply consistent_nil.
  - match goal with |- context [if ?b then _ else _] => destruct b end;
      [exact Hst|].
    match goal with |- context [if ?b then _ else _] => destruct b eqn:Hlabel end;
      [|exact Hst].
    destruct (current_platform st) as [platform|]; [|exact Hst].
    destruct (current_campus st) as [c|] eqn:Ec; [|exact Hst].
    destruct (truthy platform); [|exact Hst].
    unfold pending in *. cbn [campuses current_campus]. rewrite Ec in Hst.
    apply Forall_app in Hst as [Hdone Hc]. apply Forall_app. split; [exact Hdone|].
    constructor; [|constructor]. inversion Hc as [|? ? Hcc _]; subst.
    apply campus_consistent_store; [exact Hcc|].
    apply normalize_score_name_key. now apply str_in_In in Hlabel.
Qed.

Lemma step_no_platform_row (st : parser_state) (row : list str) :
  is_platform_row row = false ->
  current_platform st = None /\ Forall no_scores (pending st) ->
  current_platform (step st row) = None /\ Forall no_scores (pending (step st row)).
Proof.
  intros Hrow [Hp Hst]. destruct row as [|col0 [|col1 row]]; try now split.
  unfold step. unfold is_platform_row in Hrow.
  destruct (str_eqb (lower (strip col0)) (u "campus")).
  - cbn [current_platform]. split; [reflexivity|].
    unfold pending in *. cbn [campuses current_campus].
    apply Forall_app. split.
    + destruct (current_campus st); [exact Hst | now rewrite app_nil_r in Hst].
    + constructor; [|constructor]. now repeat split.
  - rewrite Hrow.
    match goal with |- context [if ?b then _ else _] => destruct b end;
      [|now split].
    rewrite Hp. now split.
Qed.

End ParserScores.

(** X11: scores are only stored under a platform row. If the input has no
    platform row, every campus of the output has its four score sets
    empty, whatever score rows it holds. *)
Theorem parse_campus_scores_csv_needs_platform_row :
  forall (rt : PyText) (rows : list (list str)),
    Forall (fun row => is_platform_row row = false) rows ->
    Forall no_scores (Sdm.out_campuses (Sdm.parse_campus_scores_csv rows)).
Proof.
  intros rt rows Hrows. rewrite out_campuses_pending.
  assert (Hinv : forall st,
             Sdm.current_platform st = None /\ Forall no_scores (pending st) ->
             Sdm.current_platform (fold_left Sdm.step rows st) = None /\
             Forall no_scores (pending (fold_left Sdm.step rows st))).
  { induction Hrows as [|row rows Hrow _ IH]; intros st Hst; [exact Hst|].
    cbn [fold_left]. apply IH. now apply step_no_platform_row. }
  apply Hinv. split; [reflexivity | constructor].
Qed.

Lemma parse_campus_scores_csv_needs_platform_row_witness :
  let rows := [ [u "Campus"; u "Puebla"]; [u "Resonancia"; u "140"];
                [u "Campus"; u "Toluca"]; [u "Visibilidad"; u "90"] ] in
  Forall (fun row => is_platform_row row = false) rows /\
  length (Sdm.out_campuses (Sdm.parse_campus_scores_csv rows)) = 2 /\
  Forall no_scores (Sdm.out_campuses (Sdm.parse_campus_scores_csv rows)).
Proof.
  intros rows.
  assert (Hrows : Forall (fun row => is_platform_row row = false) rows)
    by (repeat constructor).
  split; [exact Hrows|]. split; [reflexivity|].
  exact (parse_campus_scores_csv_needs_platform_row Latin1 rows Hrows).
Defined.

(** X12: in every campus of the output and in each of its four score sets,
    a stored score always comes with the category of that very score (null
    with null), and no category is stored without its score. *)
Theorem parse_campus_scores_csv_categories_match_scores :
  forall (rt : PyText) (rows : list (list str)),
    Forall campus_consistent (Sdm.out_campuses (Sdm.parse_campus_scores_csv rows)).
Proof.
  intros rt rows. rewrite out_campuses_pending.
  assert (Hinv : forall st,
             Forall campus_consistent (pending st) ->
             Forall campus_consistent (pending (fold_left Sdm.step rows st))).
  { induction rows as [|row rows IH]; intros st Hst; [exact Hst|].
    cbn [fold_left]. apply IH. now apply step_consistent. }
  apply Hinv. constructor.
Qed.

(** X13: a score row read while a campus and a platform are current stores
    the parsed score under the normalized score name, and its category under
    that name followed by [_categoria], in the current platform's score set,
    replacing what was there; the other score sets, the campus identity, the
    flushed campuses and the current platform are unchanged. *)
Theorem step_score_row_stores :
  forall (rt : PyText) (st : Sdm.parser_state) (c : Sdm.campus_scores)
         (p col0 col1 : str) (rest : list str),
    Sdm.current_campus st = Some c ->
    Sdm.current_platform st = Some p ->
    In p platform_names ->
    In (lower (strip col0)) score_labels ->
    exists c',
      Sdm.step st (col0 :: col1 :: rest)
      = {| Sdm.campuses := Sdm.campuses st;
           Sdm.current_campus := Some c';
           Sdm.current_platform := Some p |} /\
      sget (scores_of c' p) (Sdm.normalize_score_name (lower (strip col0)))
      = Some (Sdm.json_of_score (Sdm.parse_score (strip col1))) /\
      sget (scores_of c' p) (categoria (Sdm.normalize_score_name (lower (strip col0))))
      = Some (Sdm.json_of_category
                (Sdm.categorize_score (Sdm.parse_score (strip col1)))) /\
      (forall q, q <> p -> scores_of c' q = scores_of c q) /\
      Sdm.campus_id c' = Sdm.campus_id c /\
      Sdm.campus_name c' = Sdm.campus_name c.
Proof.
  intros rt st c p col0 col1 rest Hc Hp Hname Hlabel.
  destruct (score_label_branch _ Hlabel) as [Hcampus [Hplat Hscore]].
  unfold Sdm.step. rewrite Hcampus, Hplat, Hscore, Hp, Hc.
  rewrite (platform_name_truthy p Hname).
  fold (categoria (Sdm.normalize_score_name (lower (strip col0)))).
  eexists. split; [reflexivity|].
  rewrite !scores_of_setitem by assumption. rewrite !sget_sset.
  rewrite str_eqb_refl, categoria_not_self, str_eqb_refl.
  split; [reflexivity|]. split; [reflexivity|]. split.
  - intros q Hq. now rewrite !scores_of_setitem_other.
  - match goal with
    | |- Sdm.campus_id ?c2 = _ /\ _ =>
        assert (Hid : identity c2 = identity c) by (now rewrite !setitem_identity)
    end.
    split; [exact (f_equal fst Hid) | exact (f_equal snd Hid)].
Qed.

Lemma step_score_row_stores_witness :
  let c := {| Sdm.campus_id := u "MTY"; Sdm.campus_name := u "Monterrey";
              Sdm.facebook := [(u "visibilidad", JInt 10)]; Sdm.twitter := [];
              Sdm.instagram := []; Sdm.totales := [] |} in
  let st := {| Sdm.campuses := []; Sdm.current_campus := Some c;
               Sdm.current_platform := Some (u "facebook") |} in
  In (u "facebook") platform_names /\
  In (lower (strip (u " Visibilidad "))) score_labels /\
  exists c',
    Sdm.current_campus (Sdm.step st [u " Visibilidad "; u "82"]) = Some c' /\
    sget (Sdm.facebook c') (u "visibilidad") = Some (JInt 82) /\
    sget (Sdm.facebook c') (u "visibilidad_categoria") = Some (JStr (u "regular")).
Proof.
  intros c st.
  assert (Hp : In (u "facebook") platform_names) by (vm_compute; tauto).
  assert (Hl : In (lower (strip (u " Visibilidad "))) score_labels)
    by (vm_compute; tauto).
  split; [exact Hp|]. split; [exact Hl|].
  destruct (step_score_row_stores Latin1 st c (u "facebook") (u " Visibilidad ")
              (u "82") [] eq_refl eq_refl Hp Hl) as [c' [Hstep [Hv [Hcat _]]]].
  exists c'. split; [now rewrite Hstep|]. split; [exact Hv | exact Hcat].
Defined.

(* ------------------------------------------------------------------ *)
(** ** The score table parser: rows before the first campus row *)

Section ParserOrphans.
Context `{PyText}.
Import Sdm.

Lemma step_not_campus_row (st : parser_state) (row : list str) :
  is_campus_row row = false ->
  campuses (step st row) = campuses st /\
  (current_campus st = None -> current_campus (step st row) = None).
Proof.
  intros Hrow. destruct row as [|col0 [|col1 row]]; try now split.
  unfold step. unfold is_campus_row in Hrow. rewrite Hrow.
  match goal with |- context [if ?b then _ else _] => destruct b end;
    [now split|].
  match goal with |- context [if ?b then _ else _] => destruct b end;
    [|now split].
  destruct (current_platform st) as [platform|]; [|now split].
  destruct (current_campus st) as [c|] eqn:Ec; [|now split].
  destruct (truthy platform); split; try reflexivity; discriminate.
Qed.

Lemma fold_step_without_campus (rows : list (list str)) :
  forall st st',
    campuses st = campuses st' ->
    current_campus st = None -> current_campus st' = None ->
    pending (fold_left step rows st) = pending (fold_left step rows st').
Proof.
  induction rows as [|row rows IH]; intros st st' Hc Hn Hn'.
  - unfold pending. cbn [fold_left]. now rewrite Hc, Hn, Hn'.
  - cbn [fold_left]. destruct (is_campus_row row) eqn:Hrow.
    + rewrite (step_campus_row_flush st row Hrow),
              (step_campus_row_flush st' row Hrow).
      assert (Hp : pending st = pending st')
        by (unfold pending; now rewrite Hc, Hn, Hn').
      now rewrite Hp.
    + destruct (step_not_campus_row st row Hrow) as [H1 H2].
      destruct (step_not_campus_row st' row Hrow) as [H1' H2'].
      apply IH; [congruence | now apply H2 | now apply H2'].
Qed.

Lemma fold_step_orphans (rows : list (list str)) :
  Forall (fun row => is_campus_row row = false) rows ->
  forall st, current_campus st = None ->
    campuses (fold_left step rows st) = campuses st /\
    current_campus (fold_left step rows st) = None.
Proof.
  induction 1 as [|row rows Hrow _ IH]; intros st Hst; [now split|].
  cbn [fold_left]. destruct (step_not_campus_row st row Hrow) as [H1 H2].
  destruct (IH (step st row) (H2 Hst)) as [H3 H4]. split; congruence.
Qed.

Lemma parse_campus_scores_csv_pending (rows : list (list str)) :
  parse_campus_scores_csv rows
  = {| out_campuses := pending (fold_left step rows initial_state);
       total_campuses := length (pending (fold_left step rows initial_state)) |}.
Proof.
  unfold parse_campus_scores_csv, pending.
  destruct (current_campus _); [reflexivity | now rewrite app_nil_r].
Qed.

End ParserOrphans.

(** X14: platform and score rows that come before the first campus row are
    ignored: they create no campus, and the platform they may set does not
    reach the first campus. The output is that of the input without them. *)
Theorem parse_campus_scores_csv_ignores_leading_rows :
  forall (rt : PyText) (rows1 rows2 : list (list str)),
    Forall (fun row => is_campus_row row = false) rows1 ->
    Sdm.parse_campus_scores_csv (rows1 ++ rows2) = Sdm.parse_campus_scores_csv rows2.
Proof.
  intros rt rows1 rows2 Hrows.
  rewrite !parse_campus_scores_csv_pending, fold_left_app.
  destruct (fold_step_orphans rows1 Hrows Sdm.initial_state eq_refl) as [Hc Hn].
  now rewrite (fold_step_without_campus rows2 _ Sdm.initial_state Hc Hn eq_refl).
Qed.

Lemma parse_campus_scores_csv_ignores_leading_rows_witness :
  let leading := [ [u "Facebook"; u ""]; [u "Visibilidad"; u "82"]; [u "campus"] ] in
  let rows := [ [u "Campus"; u "Toluca"]; [u "Visibilidad"; u "90"] ] in
  Forall (fun row => is_campus_row row = false) leading /\
  Sdm.parse_campus_scores_csv (leading ++ rows) = Sdm.parse_campus_scores_csv rows /\
  Forall no_scores (Sdm.out_campuses (Sdm.parse_campus_scores_csv (leading ++ rows))).
Proof.
  intros leading rows.
  assert (Hl : Forall (fun row => is_campus_row row = false) leading)
    by (repeat constructor).
  split; [exact Hl|].
  split; [exact (parse_campus_scores_csv_ignores_leading_rows Latin1 leading rows Hl)|].
  repeat constructor.
Defined.

(* ------------------------------------------------------------------ *)
(** * schemas.py: the validation report *)

Module Reports.

Record CampusValidation := {
  campus_id : str;
  campus_name : str;
  has_publications : bool;
  publication_count : Z;
  has_current_metrics : bool;
  has_previous_metrics : bool;
  has_platform_scores : bool;
  is_complete : bool;
  notes : option str
}.

Record ValidationReport := {
  validations : list CampusValidation;
  total_campuses : Z;
  complete_campuses : Z;
  incomplete_campuses : Z;
  summary : str;
  metadata : sdict json
}.

(** [sum(...)] over integers. *)
Definition sum (l : list Z) : Z := fold_left Z.add l 0%Z.

(** The [model_validator(mode='after')] of [ValidationReport]. *)
Definition calculate_totals (self : ValidationReport) : ValidationReport :=
  let total := Z.of_nat (length (validations self)) in
  let complete := sum (map (fun _ => 1%Z) (filter is_complete (validations self))) in
  {| validations := validations self;
     total_campuses := total;
     complete_campuses := complete;
     incomplete_campuses := (total - complete)%Z;
     summary := summary self;
     metadata := metadata self |}.

End Reports.

Section ReportFacts.
Import Reports.

(** A report as handed to the validator, with counters of the caller's. *)
Definition with_counters (r : ValidationReport) (total complete incomplete : Z)
    : ValidationReport :=
  {| validations := validations r;
     total_campuses := total;
     complete_campuses := complete;
     incomplete_campuses := incomplete;
     summary := summary r;
     metadata := metadata r |}.

Lemma sum_ones {A} (l : list A) : sum (map (fun _ => 1%Z) l) = Z.of_nat (length l).
Proof.
  unfold sum.
  assert (Hacc : forall acc, fold_left Z.add (map (fun _ : A => 1%Z) l) acc
                             = (acc + Z.of_nat (length l))%Z).
  { induction l as [|a l IH]; intros acc; cbn [map fold_left length].
    - lia.
    - rewrite IH. lia. }
  rewrite Hacc. lia.
Qed.

Lemma length_filter_negb {A} (f : A -> bool) (l : list A) :
  length (filter f l) + length (filter (fun a => negb (f a)) l) = length l.
Proof.
  induction l as [|a l IH]; [reflexivity|]. cbn [filter].
  destruct (f a); cbn [negb length]; lia.
Qed.

End ReportFacts.

(** X15: after validation a report counts its own list, whatever counters
    it was built with: the total is the number of validations, the complete
    count the number of those marked complete, the incomplete count the
    number of the others, so the two add up to the total and neither is
    negative; validating again changes nothing. *)
Theorem calculate_totals_counts :
  forall (r : Reports.ValidationReport) (total complete incomplete : Z),
    let r' := Reports.calculate_totals (with_counters r total complete incomplete) in
    Reports.total_campuses r' = Z.of_nat (length (Reports.validations r)) /\
    Reports.complete_campuses r'
    = Z.of_nat (length (filter Reports.is_complete (Reports.validations r))) /\
    Reports.incomplete_campuses r'
    = Z.of_nat (length (filter (fun v => negb (Reports.is_complete v))
                               (Reports.validations r))) /\
    (Reports.complete_campuses r' + Reports.incomplete_campuses r'
     = Reports.total_campuses r')%Z /\
    r' = Reports.calculate_totals r /\
    Reports.calculate_totals r' = r'.
Proof.
  intros r total complete incomplete r'. subst r'.
  unfold Reports.calculate_totals, with_counters.
  cbn [Reports.validations Reports.total_campuses Reports.complete_campuses
       Reports.incomplete_campuses Reports.summary Reports.metadata].
  rewrite sum_ones.
  pose proof (length_filter_negb Reports.is_complete (Reports.validations r)) as Hlen.
  split; [reflexivity|]. split; [reflexivity|]. split; [lia|]. split; [lia|].
  split; reflexivity.
Qed.

(* ------------------------------------------------------------------ *)
(** ** The metrics merge: order of the previous-period records *)

Section MergeOrder.
Context `{PyText}.
Import Metrics.

Lemma NoDup_map_injective {A B} (f : A -> B) (l : list A) (x y : A) :
  NoDup (map f l) -> In x l -> In y l -> f x = f y -> x = y.
Proof.
  induction l as [|a l IH]; intros Hnd Hx Hy Hf; [destruct Hx|].
  cbn [map] in Hnd. inversion Hnd as [|? ? Hnotin Hnd']; subst.
  destruct Hx as [->|Hx], Hy as [->|Hy]; try reflexivity.
  - exfalso. apply Hnotin. rewrite Hf. now apply in_map.
  - exfalso. apply Hnotin. rewrite <- Hf. now apply in_map.
  - now apply IH.
Qed.

Lemma find_unique {A} (f : A -> bool) (l l' : list A) :
  (forall x y, In x l -> In y l -> f x = true -> f y = true -> x = y) ->
  Permutation l l' -> find f l = find f l'.
Proof.
  intros Huniq Hperm.
  destruct (find f l) as [p|] eqn:Hl, (find f l') as [q|] eqn:Hl'; try reflexivity.
  - apply find_some in Hl as [Hp Hfp]. apply find_some in Hl' as [Hq Hfq].
    f_equal. apply Huniq; try assumption.
    now apply (Permutation_in _ (Permutation_sym Hperm)).
  - apply find_some in Hl as [Hp Hfp].
    rewrite (find_none _ _ Hl' p (Permutation_in _ Hperm Hp)) in Hfp. discriminate.
  - apply find_some in Hl' as [Hq Hfq].
    rewrite (find_none _ _ Hl q (Permutation_in _ (Permutation_sym Hperm) Hq)) in Hfq.
    discriminate.
Qed.

Lemma last_previous_permutation (k : str) (prev prev' : list metrics_row) :
  NoDup (map REGION prev) -> Permutation prev prev' ->
  last_previous k prev = last_previous k prev'.
Proof.
  intros Hnd Hperm. unfold last_previous. apply find_unique.
  - intros x y Hx Hy Hfx Hfy. apply in_rev in Hx. apply in_rev in Hy.
    apply (NoDup_map_injective REGION prev); try assumption.
    unfold has_region in Hfx, Hfy.
    destruct (REGION x) as [rx|]; [|discriminate].
    destruct (REGION y) as [ry|]; [|discriminate].
    apply str_eqb_eq in Hfx. apply str_eqb_eq in Hfy. congruence.
  - rewrite <- !Permutation_rev. exact Hperm.
Qed.

Lemma combine_ext (lk lk' : sdict metrics_row) (row : metrics_row) :
  sget lk (region_str row) = sget lk' (region_str row) ->
  combine lk row = combine lk' row.
Proof. intros E. unfold combine. now rewrite E. Qed.

Lemma previous_regions_dec (prev : list metrics_row) :
  Forall (fun p => REGION p <> None) prev \/ Exists (fun p => REGION p = None) prev.
Proof.
  induction prev as [|p prev [IH|IH]].
  - left. constructor.
  - destruct (REGION p) eqn:E.
    + left. constructor; [congruence | exact IH].
    + right. now constructor.
  - right. now constructor 2.
Qed.

End MergeOrder.

(** X16: when the previous-period records have pairwise distinct REGION
    keys, the order of the lines of the previous-period file does not
    matter: any reordering gives the same result, be it the same merged
    output or the same KeyError. *)
Theorem process_metrics_previous_order_irrelevant :
  forall (rt : PyText) (current_data previous_data previous_data' : list Metrics.metrics_row),
    Permutation previous_data previous_data' ->
    NoDup (map Metrics.REGION previous_data) ->
    Metrics.process_metrics current_data previous_data
    = Metrics.process_metrics current_data previous_data'.
Proof.
  intros rt cur prev prev' Hperm Hnd.
  destruct (previous_regions_dec prev) as [Hall|Hex].
  - assert (Hall' : Forall (fun p => Metrics.REGION p <> None) prev').
    { rewrite Forall_forall in Hall |- *. intros p Hp. apply Hall.
      now apply (Permutation_in _ (Permutation_sym Hperm)). }
    unfold Metrics.process_metrics.
    destruct (build_previous_lookup_ok prev Hall []) as [lk [Hlk _]].
    destruct (build_previous_lookup_ok prev' Hall' []) as [lk' [Hlk' _]].
    rewrite Hlk, Hlk'.
    assert (E : map (Metrics.combine lk) cur = map (Metrics.combine lk') cur).
    { apply map_ext. intros row. apply combine_ext.
      rewrite (build_previous_lookup_last prev [] lk Hlk),
              (build_previous_lookup_last prev' [] lk' Hlk').
      now rewrite (last_previous_permutation _ prev prev' Hnd Hperm). }
    now rewrite E.
  - assert (Hex' : Exists (fun p => Metrics.REGION p = None) prev').
    { rewrite Exists_exists in Hex |- *. destruct Hex as [p [Hp Hr]].
      exists p. split; [now apply (Permutation_in _ Hperm) | exact Hr]. }
    unfold Metrics.process_metrics.
    now rewrite (build_previous_lookup_raise prev Hex []),
                (build_previous_lookup_raise prev' Hex' []).
Qed.

Lemma process_metrics_previous_order_irrelevant_witness :
  let a := row_of (Some (u "Monterrey")) 200 in
  let b := row_of (Some (u "Puebla")) 7 in
  Permutation [a; b] [b; a] /\
  NoDup (map Metrics.REGION [a; b]) /\
  Metrics.process_metrics example_current [a; b]
  = Metrics.process_metrics example_current [b; a].
Proof.
  intros a b.
  assert (Hperm : Permutation [a; b] [b; a]) by apply perm_swap.
  assert (Hnd : NoDup (map Metrics.REGION [a; b])).
  { repeat constructor.
    - intros [E|[]]. vm_compute in E. discriminate E.
    - intros []. }
  split; [exact Hperm|]. split; [exact Hnd|].
  exact (process_metrics_previous_order_irrelevant Latin1 example_current
           [a; b] [b; a] Hperm Hnd).
Defined.
